(** * slack2discord: the import pipeline of [slack2discord.py]

    A shallow embedding of the Slack-export importer: the export locator
    ([get_file_paths]), the identity resolver ([get_display_names],
    [get_channel_names]), the message transformer ([fill_references]), the
    attachment fetcher ([uploadd_file]) and the orchestrator ([import_here]).

    Conventions of the embedding.
    - A Python [str] is a [string]; [len] is [String.length].
    - A value produced by [json.load] is a [json]; integers are exact,
      non-integer number literals are not part of the embedding.
    - A Python [dict] is an association list in insertion order.
    - A raised exception is [inl e]; code that prints or sends before it may
      raise lives in the monad [M], which keeps the events emitted so far.
    - The file system, the network, the clock formatting and [str()] of
      non-string values are fields of the record [world]. Paths follow the
      POSIX flavour of [os.path]; a directory can always be listed.
    - [ctx.send] and [channel.send] are recorded as events and do not
      raise; [await] is sequential, so it leaves no mark. *)

From Stdlib Require Import String Ascii List ZArith Lia Bool Arith.
From Stdlib Require Import Sorting.Sorted Sorting.Permutation.
From Stdlib Require DecimalString.
Import ListNotations.
Local Open Scope list_scope.
Local Open Scope string_scope.

Set Warnings "-register-all".

(** ** Python string primitives *)

Module PyStr.

Definition LF : ascii := ascii_of_nat 10.
Definition TAB : ascii := ascii_of_nat 9.
Definition nl : string := String LF EmptyString.
Definition tab : string := String TAB EmptyString.

(** [s.startswith(p)] *)
Fixpoint startswith (p s : string) : bool :=
  match p, s with
  | EmptyString, _ => true
  | String a p', String b s' => Ascii.eqb a b && startswith p' s'
  | String _ _, EmptyString => false
  end.

(** [p in s] for two strings: [p] occurs in [s] as a substring. *)
Fixpoint occurs (p s : string) : bool :=
  startswith p s ||
  match s with
  | EmptyString => false
  | String _ s' => occurs p s'
  end.

(** The first [n] characters and what follows them. *)
Fixpoint take (n : nat) (s : string) : string :=
  match n, s with
  | S n', String c s' => String c (take n' s')
  | _, _ => EmptyString
  end.

Fixpoint drop (n : nat) (s : string) : string :=
  match n, s with
  | S n', String _ s' => drop n' s'
  | _, _ => s
  end.

(** [s.endswith(p)] *)
Definition endswith (p s : string) : bool :=
  (String.length p <=? String.length s)%nat &&
  String.eqb (drop (String.length s - String.length p) s) p.

(** [s[:limit]] with Python's reading of a negative bound: it counts from
    the end of the string. *)
Definition slice_to (s : string) (limit : Z) : string :=
  let len := Z.of_nat (String.length s) in
  let stop := if (limit <? 0)%Z then Z.max 0 (len + limit) else limit in
  take (Z.to_nat stop) s.

(** [s.lstrip(ch)], [s.rstrip(ch)] and [s.strip(ch)] for a one-character
    argument [ch]. *)
Fixpoint lstrip (ch : ascii) (s : string) : string :=
  match s with
  | String c s' => if Ascii.eqb c ch then lstrip ch s' else s
  | EmptyString => EmptyString
  end.

Fixpoint rstrip (ch : ascii) (s : string) : string :=
  match s with
  | EmptyString => EmptyString
  | String c s' =>
      match rstrip ch s' with
      | EmptyString => if Ascii.eqb c ch then EmptyString else String c EmptyString
      | r => String c r
      end
  end.

Definition strip (ch : ascii) (s : string) : string := lstrip ch (rstrip ch s).

(** ['\n'.join([a, b])] *)
Definition join_nl (a b : string) : string := a ++ nl ++ b.

(** [s.replace(old, new)] for a non-empty [old]: the non-overlapping
    occurrences of [old] are replaced from left to right. [skip] counts the
    characters of a matched occurrence still to be dropped. *)
Fixpoint replace_from (old new : string) (skip : nat) (s : string) : string :=
  match s with
  | EmptyString => EmptyString
  | String c s' =>
      match skip with
      | S k => replace_from old new k s'
      | O =>
          if startswith old s
          then new ++ replace_from old new (String.length old - 1) s'
          else String c (replace_from old new 0 s')
      end
  end.

(** With an empty [old], Python puts [new] before every character and at
    the end. *)
Fixpoint intersperse (new s : string) : string :=
  match s with
  | EmptyString => new
  | String c s' => new ++ String c (intersperse new s')
  end.

Definition replace (old new s : string) : string :=
  match old with
  | EmptyString => intersperse new s
  | String _ _ => replace_from old new 0 s
  end.

End PyStr.

(** ** Values, exceptions and dictionaries *)

(** What [json.load] returns: [None], [bool], [int], [str], [list], [dict].
    A [JObj] lists the items of the dict; the first binding of a key is the
    one the dict holds. *)
Inductive json : Type :=
| JNull
| JBool (b : bool)
| JInt (n : Z)
| JStr (s : string)
| JArr (items : list json)
| JObj (fields : list (string * json)).

Inductive exn : Type :=
| KeyError
| TypeError
| AttributeError
| IndexError
| External (name : string).

(** The error monad of code that may raise. *)
Definition result (A : Type) : Type := (exn + A)%type.

Definition ebind {A B : Type} (r : result A) (k : A -> result B) : result B :=
  match r with
  | inl e => inl e
  | inr a => k a
  end.

Notation "'let?' x ':=' c 'in' k" := (ebind c (fun x => k))
  (at level 10, x name, c at level 100, k at level 200).

(** [bool(v)] *)
Definition truthy (v : json) : bool :=
  match v with
  | JNull => false
  | JBool b => b
  | JInt n => negb (n =? 0)%Z
  | JStr s => negb (String.eqb s "")
  | JArr l => match l with [] => false | _ => true end
  | JObj l => match l with [] => false | _ => true end
  end.

Fixpoint assoc (key : string) (fields : list (string * json)) : option json :=
  match fields with
  | [] => None
  | (k, v) :: rest => if String.eqb k key then Some v else assoc key rest
  end.

(** The keys of a [JObj], each once, in order of first appearance. *)
Fixpoint keys_of (fields : list (string * json)) : list string :=
  match fields with
  | [] => []
  | (k, _) :: rest => k :: filter (fun k' => negb (String.eqb k' k)) (keys_of rest)
  end.

Definition is_str (key : string) (v : json) : bool :=
  match v with
  | JStr s => String.eqb s key
  | _ => false
  end.

(** [key in v] for a string [key] *)
Definition py_contains (key : string) (v : json) : result bool :=
  match v with
  | JObj fields => inr (match assoc key fields with Some _ => true | None => false end)
  | JStr s => inr (PyStr.occurs key s)
  | JArr l => inr (existsb (is_str key) l)
  | _ => inl TypeError
  end.

(** [v[key]] for a string [key] *)
Definition py_getitem (v : json) (key : string) : result json :=
  match v with
  | JObj fields => match assoc key fields with Some x => inr x | None => inl KeyError end
  | _ => inl TypeError
  end.

(** [v.get(key, default)] *)
Definition py_get (v : json) (key : string) (default : json) : result json :=
  match v with
  | JObj fields => inr (match assoc key fields with Some x => x | None => default end)
  | _ => inl AttributeError
  end.

Fixpoint chars_of (s : string) : list json :=
  match s with
  | EmptyString => []
  | String c s' => JStr (String c EmptyString) :: chars_of s'
  end.

(** The elements a [for] loop over [v] visits. *)
Definition py_iter (v : json) : result (list json) :=
  match v with
  | JArr l => inr l
  | JObj fields => inr (map JStr (keys_of fields))
  | JStr s => inr (chars_of s)
  | _ => inl TypeError
  end.

(** A dict built by the program: keys are hashable values, items are kept
    in insertion order. *)
Definition dict : Type := list (json * json).

Definition hashable (k : json) : bool :=
  match k with
  | JArr _ | JObj _ => false
  | _ => true
  end.

(** [a == b] on hashable values; [True == 1] and [False == 0]. *)
Definition key_eqb (a b : json) : bool :=
  match a, b with
  | JNull, JNull => true
  | JStr x, JStr y => String.eqb x y
  | JInt x, JInt y => (x =? y)%Z
  | JBool x, JBool y => Bool.eqb x y
  | JBool x, JInt y | JInt y, JBool x => (y =? (if x then 1 else 0))%Z
  | _, _ => false
  end.

Fixpoint dict_find (d : dict) (k : json) : option json :=
  match d with
  | [] => None
  | (k', v) :: rest => if key_eqb k' k then Some v else dict_find rest k
  end.

(** [d[k] = v] keeps the position (and the key object) of an existing
    entry and appends a new one. *)
Fixpoint dict_put (d : dict) (k v : json) : dict :=
  match d with
  | [] => [(k, v)]
  | (k', v') :: rest =>
      if key_eqb k' k then (k', v) :: rest else (k', v') :: dict_put rest k v
  end.

Definition dict_setitem (d : dict) (k v : json) : result dict :=
  if hashable k then inr (dict_put d k v) else inl TypeError.

(** [d[k]] where [d] is a dict or [None] *)
Definition dict_getitem (d : option dict) (k : json) : result json :=
  match d with
  | None => inl TypeError
  | Some items =>
      if hashable k
      then match dict_find items k with Some v => inr v | None => inl KeyError end
      else inl TypeError
  end.

(** [d.items()] where [d] is a dict or [None] *)
Definition dict_items (d : option dict) : result (list (json * json)) :=
  match d with
  | None => inl AttributeError
  | Some items => inr items
  end.

(** [if d:] where [d] is a dict or [None] *)
Definition dict_truthy (d : option dict) : bool :=
  match d with
  | Some (_ :: _) => true
  | _ => false
  end.

(** ** Events and the monad of effectful code *)

Inductive event : Type :=
| Print (line : string)
| PrintError (context : string) (e : exn)
| PrintSkip (e : exn) (url : json)
| CtxSend (msg : string)
| ChannelSend (text : string)
| ChannelSendFile (data : string) (name : json)
| Sleep.

(** The events emitted so far, and either the exception raised or the
    value returned. *)
Definition M (A : Type) : Type := (list event * result A)%type.

Definition ret {A : Type} (a : A) : M A := ([], inr a).

Definition bind {A B : Type} (c : M A) (k : A -> M B) : M B :=
  match c with
  | (evs, inl e) => (evs, inl e)
  | (evs, inr a) => let (evs', r) := k a in ((evs ++ evs')%list, r)
  end.

Definition lift {A : Type} (r : result A) : M A := ([], r).

Definition emit (ev : event) : M unit := ([ev], inr tt).

(** [try: c  except Exception as e: h e] *)
Definition try_catch {A : Type} (c : M A) (h : exn -> M A) : M A :=
  match c with
  | (evs, inl e) => let (evs', r) := h e in ((evs ++ evs')%list, r)
  | (evs, inr a) => (evs, inr a)
  end.

Notation "x <- c ;; k" := (bind c (fun x => k))
  (at level 61, c at next level, right associativity).
Notation "c ;; k" := (bind c (fun _ => k))
  (at level 61, right associativity).

Fixpoint for_each {A : Type} (body : A -> M unit) (l : list A) : M unit :=
  match l with
  | [] => ret tt
  | a :: rest => body a ;; for_each body rest
  end.

Definition trace {A : Type} (c : M A) : list event := fst c.
Definition outcome {A : Type} (c : M A) : result A := snd c.

(** ** The environment of a run *)

Record world : Type := {
  (** [os.path.isdir], [os.path.isfile], [os.listdir] *)
  isdir : string -> bool;
  isfile : string -> bool;
  listdir : string -> list string;
  (** [open(path, encoding='utf-8')] followed by [json.load] *)
  json_load : string -> result json;
  (** [session.get(url)]: the status, then what [resp.read()] gives *)
  http_get : json -> result (Z * result string);
  (** [datetime.fromtimestamp(float(ts)).strftime('%m/%d/%Y at %H:%M:%S')] *)
  strftime_ts : json -> result string;
  (** [str(v)] for a value that is not a string *)
  str_of : json -> string;
  (** [ctx.message.channel.name] *)
  channel_name : string
}.

(** ** POSIX [os.path] *)

Module PosixPath.

Definition SEP : ascii := "/"%char.
Definition sep : string := String SEP EmptyString.

(** [os.path.join(a, b)] *)
Definition join (a b : string) : string :=
  if PyStr.startswith sep b then b
  else if String.eqb a "" || PyStr.endswith sep a then a ++ b
  else a ++ sep ++ b.

Fixpoint has_sep (s : string) : bool :=
  match s with
  | EmptyString => false
  | String c s' => Ascii.eqb c SEP || has_sep s'
  end.

(** [p[:p.rfind('/') + 1]] *)
Fixpoint upto_last_sep (p : string) : string :=
  match p with
  | EmptyString => EmptyString
  | String c p' => if has_sep p then String c (upto_last_sep p') else EmptyString
  end.

Fixpoint all_sep (s : string) : bool :=
  match s with
  | EmptyString => true
  | String c s' => Ascii.eqb c SEP && all_sep s'
  end.

(** [os.path.dirname(p)] *)
Definition dirname (p : string) : string :=
  let head := upto_last_sep p in
  if negb (String.eqb head "") && negb (all_sep head)
  then PyStr.rstrip SEP head
  else head.

End PosixPath.

(** [sorted(paths)]: strings are ordered character by character. *)
Fixpoint insert_sorted (x : string) (l : list string) : list string :=
  match l with
  | [] => [x]
  | y :: rest => if String.leb x y then x :: l else y :: insert_sorted x rest
  end.

Fixpoint sorted (l : list string) : list string :=
  match l with
  | [] => []
  | x :: rest => insert_sorted x (sorted rest)
  end.

(** [str(len(l))] *)
Definition str_of_nat (n : nat) : string :=
  DecimalString.NilEmpty.string_of_uint (Nat.to_uint n).

(** ** The program *)

Section Program.

Variable W : world.

(** What an f-string puts for [{v}]. *)
Definition fmt (v : json) : string :=
  match v with
  | JStr s => s
  | _ => str_of W v
  end.

(** *** Export locator *)

Definition json_files_at (file_path : string) : list string :=
  if isdir W file_path
  then map (PosixPath.join file_path)
           (filter (PyStr.endswith ".json") (listdir W file_path))
  else if PyStr.endswith ".json" file_path then [file_path]
  else [].

Definition get_file_paths (file_path : string) : M (list string) :=
  let json_files := json_files_at file_path in
  match json_files with
  | [] => emit (Print ("[ERROR] No .json files found at " ++ file_path))
  | _ => emit (Print ("[INFO] " ++ str_of_nat (List.length json_files) ++ " .json files loaded"))
  end ;;
  ret json_files.

(** *** Identity resolver *)

(** [json_file_paths[0]] *)
Definition first_path (json_file_paths : list string) : result string :=
  match json_file_paths with
  | [] => inl IndexError
  | p :: _ => inr p
  end.

(** The lookup file next to the first export file, else one level up. *)
Definition locate_table (name : string) (first : string) : option string :=
  let in_dir := PosixPath.join (PosixPath.dirname first) name in
  let in_parent := PosixPath.join (PosixPath.dirname (PosixPath.dirname first)) name in
  if isfile W in_dir then Some in_dir
  else if isfile W in_parent then Some in_parent
  else None.

(** One turn of the loop over [users_json]. *)
Definition add_user (users : dict) (user : json) : M dict :=
  profile <- lift (py_getitem user "profile") ;;
  display_name <- lift (py_getitem profile "display_name") ;;
  name <- lift (if truthy display_name then inr display_name
                else py_getitem profile "real_name") ;;
  uid <- lift (py_getitem user "id") ;;
  users' <- lift (dict_setitem users uid name) ;;
  emit (Print (PyStr.tab ++ "User ID: " ++ fmt uid ++ " -> Display Name: " ++ fmt name)) ;;
  ret users'.

Fixpoint add_users (users : dict) (users_json : list json) : M dict :=
  match users_json with
  | [] => ret users
  | user :: rest => users' <- add_user users user ;; add_users users' rest
  end.

Definition get_display_names (json_file_paths : list string) : M (option dict) :=
  emit (Print "[INFO] Attempting to locate users.json") ;;
  first <- lift (first_path json_file_paths) ;;
  match locate_table "users.json" first with
  | None => emit (Print "[ERROR] Unable to locate users.json") ;; ret None
  | Some file_path =>
      try_catch
        (users_json <- lift (json_load W file_path) ;;
         entries <- lift (py_iter users_json) ;;
         users <- add_users [] entries ;;
         ret (Some users))
        (fun e => emit (PrintError "[ERROR] Unable to load display names: " e) ;;
                  ret None)
  end.

(** One turn of the loop over [channels_json]. *)
Definition add_channel (channels : dict) (channel : json) : M dict :=
  name <- lift (py_getitem channel "name") ;;
  cid <- lift (py_getitem channel "id") ;;
  channels' <- lift (dict_setitem channels cid name) ;;
  emit (Print (PyStr.tab ++ "Channel ID: " ++ fmt cid ++ " -> Channel Name: " ++ fmt name)) ;;
  ret channels'.

Fixpoint add_channels (channels : dict) (channels_json : list json) : M dict :=
  match channels_json with
  | [] => ret channels
  | channel :: rest => channels' <- add_channel channels channel ;; add_channels channels' rest
  end.

Definition get_channel_names (json_file_paths : list string) : M (option dict) :=
  emit (Print "[INFO] Attempting to locate channels.json") ;;
  first <- lift (first_path json_file_paths) ;;
  match locate_table "channels.json" first with
  | None => emit (Print "[ERROR] Unable to locate channels.json") ;; ret None
  | Some file_path =>
      try_catch
        (channels_json <- lift (json_load W file_path) ;;
         entries <- lift (py_iter channels_json) ;;
         channels <- add_channels [] entries ;;
         ret (Some channels))
        (fun e => emit (PrintError "[ERROR] Unable to load channel names: " e) ;;
                  ret None)
  end.

(** *** Message transformer *)

Definition MAX_MESSAGE_SIZE : Z := 2000 - 60.

(** [message = message.replace(f'<@{uid}>', f'@{name}')], with [opening]
    ["<@"] and [mark] ["@"] for users, ["<#"] and ["#"] for channels. *)
Definition replace_ref (opening mark : string) (message : json) (entry : json * json)
  : result json :=
  match message with
  | JStr s =>
      inr (JStr (PyStr.replace (opening ++ fmt (fst entry) ++ ">") (mark ++ fmt (snd entry)) s))
  | _ => inl AttributeError
  end.

Fixpoint replace_refs (opening mark : string) (message : json) (items : list (json * json))
  : result json :=
  match items with
  | [] => inr message
  | entry :: rest =>
      let? message' := replace_ref opening mark message entry in
      replace_refs opening mark message' rest
  end.

(** The two substitution loops of [fill_references]. *)
Definition substitute (message : json) (users channels : option dict) : result json :=
  let? user_items := dict_items users in
  let? message1 := replace_refs "<@" "@" message user_items in
  let? channel_items := dict_items channels in
  replace_refs "<#" "#" message1 channel_items.

(** The loop building [files_msg]; ['\n'.join] accepts strings only. *)
Fixpoint join_files (files_msg : string) (files : list json) : result string :=
  match files with
  | [] => inr files_msg
  | JStr file_url :: rest => join_files (PyStr.join_nl files_msg file_url) rest
  | _ :: _ => inl TypeError
  end.

(** The last two statements: the slice, the join and the strip. A value
    that is not a string cannot be sliced, or its slice cannot be joined. *)
Definition truncate_and_append (message : json) (files_msg : string) : result string :=
  let limit := (MAX_MESSAGE_SIZE - Z.of_nat (String.length files_msg))%Z in
  match message with
  | JStr s => inr (PyStr.strip PyStr.LF (PyStr.join_nl (PyStr.slice_to s limit) files_msg))
  | _ => inl TypeError
  end.

Definition fill_references (message : json) (users channels : option dict)
  (files : list json) : result string :=
  let? message' := substitute message users channels in
  let? files_msg := join_files "" files in
  truncate_and_append message' files_msg.

(** *** Attachment fetcher *)

Definition uploadd_file (file_info : json) : M unit :=
  mimetype <- lift (py_getitem file_info "mimetype") ;;
  is_image <- lift (py_contains "image" mimetype) ;;
  if (is_image : bool) then ret tt
  else
    try_catch
      (url <- lift (py_getitem file_info "url_private") ;;
       resp <- lift (http_get W url) ;;
       if negb (fst resp =? 200)%Z
       then emit (ChannelSend "Could not download file...")
       else
         data <- lift (snd resp) ;;
         name <- lift (py_getitem file_info "name") ;;
         emit (ChannelSendFile data name))
      (fun e =>
         url <- lift (py_getitem file_info "url_private") ;;
         emit (PrintSkip e url)).

(** *** Import orchestrator *)

(** [all(key in message for key in keys)] and [any(...)], which stop at
    the first key that decides. *)
Fixpoint all_in (message : json) (keys : list string) : result bool :=
  match keys with
  | [] => inr true
  | key :: rest =>
      let? present := py_contains key message in
      if (present : bool) then all_in message rest else inr false
  end.

Fixpoint any_in (message : json) (keys : list string) : result bool :=
  match keys with
  | [] => inr false
  | key :: rest =>
      let? present := py_contains key message in
      if (present : bool) then inr true else any_in message rest
  end.

Definition has_required_fields (message : json) : result bool :=
  let? fields := all_in message ["ts"; "text"] in
  if (fields : bool) then any_in message ["user_profile"; "user"] else inr false.

(** The author name: the inline profile first, else the user table. *)
Definition author_name (users : option dict) (message : json) : result json :=
  let? inline := py_contains "user_profile" message in
  if (inline : bool) then
    let? profile := py_getitem message "user_profile" in
    let? display_name := py_getitem profile "display_name" in
    if truthy display_name then inr display_name
    else py_getitem profile "real_name"
  else
    let? uid := py_getitem message "user" in
    dict_getitem users uid.

(** [[f.get('url_private') for f in message.get('files', [])]] *)
Fixpoint url_private_of (file_infos : list json) : result (list json) :=
  match file_infos with
  | [] => inr []
  | f :: rest =>
      let? url := py_get f "url_private" JNull in
      let? urls := url_private_of rest in
      inr (url :: urls)
  end.

Definition message_files (message : json) : result (list json) :=
  let? files := py_get message "files" (JArr []) in
  py_iter files.

Definition compose (username : json) (timestamp text : string) : string :=
  "**" ++ fmt username ++ "** *(" ++ timestamp ++ ")*" ++ PyStr.nl ++ text.

(** The body of the loop over the messages of one export file. *)
Definition import_message (users channels : option dict) (message : json) : M unit :=
  valid <- lift (has_required_fields message) ;;
  if (valid : bool) then
    username <- lift (author_name users message) ;;
    ts <- lift (py_getitem message "ts") ;;
    timestamp <- lift (strftime_ts W ts) ;;
    file_infos <- lift (message_files message) ;;
    files <- lift (url_private_of file_infos) ;;
    raw <- lift (py_getitem message "text") ;;
    text <- lift (fill_references raw users channels files) ;;
    let msg := compose username timestamp text in
    emit (CtxSend msg) ;;
    file_infos' <- lift (message_files message) ;;
    for_each uploadd_file file_infos' ;;
    emit (Print ("[INFO] Imported message: '" ++ msg ++ "'")) ;;
    emit Sleep
  else
    emit (Print "[WARNING] User information, timestamp, or message text missing").

(** The body of the loop over the export files: one [try] per file. *)
Definition import_file (users channels : option dict) (json_file : string) : M unit :=
  emit (Print ("[INFO] Parsing file: " ++ json_file)) ;;
  try_catch
    (document <- lift (json_load W json_file) ;;
     messages <- lift (py_iter document) ;;
     for_each (import_message users channels) messages)
    (fun e => emit (PrintError "[ERROR] " e)).

(** The body of the loop over the path arguments. *)
Definition import_path (path : string) : M unit :=
  emit (Print ("[INFO] Attempting to import '" ++ path ++ "' to channel '#"
               ++ channel_name W ++ "'")) ;;
  json_file_paths <- get_file_paths path ;;
  match json_file_paths with
  | [] => emit (Print ("[ERROR] No .json files found at " ++ path))
  | _ =>
      users <- get_display_names json_file_paths ;;
      emit (Print (if dict_truthy users
                   then "[INFO] users.json found - attempting to fill @mentions"
                   else "[WARNING] No users.json found - @mentions will contain user IDs instead of display names")) ;;
      channels <- get_channel_names json_file_paths ;;
      emit (Print (if dict_truthy channels
                   then "[INFO] channels.json found - attempting to fill #channel references"
                   else "[WARNING] No channels.json found - #channel references will contain user IDs instead of names")) ;;
      for_each (import_file users channels) (sorted json_file_paths) ;;
      emit (Print "[INFO] Import complete")
  end.

Definition import_here (kwpath : list string) : M unit :=
  for_each import_path kwpath.

End Program.

(** ** Sample environments *)

Fixpoint repeat_char (c : ascii) (n : nat) : string :=
  match n with
  | O => EmptyString
  | S n' => String c (repeat_char c n')
  end.

Fixpoint entries_of (dirs : list (string * list string)) (p : string) : option (list string) :=
  match dirs with
  | [] => None
  | (d, names) :: rest => if String.eqb d p then Some names else entries_of rest p
  end.

(** A file system with the directories [dirs] and the JSON documents
    [docs]; every download fails and every timestamp prints the same. *)
Definition sample_world (dirs : list (string * list string)) (docs : list (string * json))
  : world :=
  {| isdir := fun p => match entries_of dirs p with Some _ => true | None => false end;
     isfile := fun p => match assoc p docs with Some _ => true | None => false end;
     listdir := fun p => match entries_of dirs p with Some names => names | None => [] end;
     json_load := fun p =>
       match assoc p docs with
       | Some d => inr d
       | None => inl (External "FileNotFoundError")
       end;
     http_get := fun _ => inl (External "ClientError");
     strftime_ts := fun ts =>
       match ts with
       | JStr _ | JInt _ => inr "01/01/2021 at 00:00:00"
       | _ => inl TypeError
       end;
     str_of := fun _ => "?";
     channel_name := "general" |}.

Definition empty_world : world := sample_world [] [].

Definition alice_message_at (ts text : string) : json :=
  JObj [("ts", JStr ts);
        ("user_profile", JObj [("display_name", JStr "Alice"); ("real_name", JStr "")]);
        ("text", JStr text)].

Definition alice_message (text : string) : json := alice_message_at "1609459200" text.

(** A record that names its author by an identifier no table knows. *)
Definition orphan_fields : list (string * json) :=
  [("ts", JStr "1609459300"); ("text", JStr "who am I"); ("user", JStr "U999")].

(** A record with an attachment descriptor that has no [url_private]. *)
Definition unlinked_fields : list (string * json) :=
  [("ts", JStr "1609459300"); ("text", JStr "see file"); ("user", JStr "U123");
   ("files", JArr [JObj [("url_private", JStr "https://files.example/a.txt");
                         ("name", JStr "a.txt"); ("mimetype", JStr "text/plain")];
                   JObj [("name", JStr "b.txt"); ("mimetype", JStr "text/plain")]])].

(** A profile with an empty [display_name]. *)
Definition bob_profile : list (string * json) :=
  [("display_name", JStr ""); ("real_name", JStr "Bob")].

Definition bob_entry : list (string * json) :=
  [("id", JStr "U123"); ("profile", JObj bob_profile)].

Definition carol_entry : json :=
  JObj [("id", JStr "U456");
        ("profile", JObj [("display_name", JStr "carol"); ("real_name", JStr "Carol")])].

Definition sample_users : dict := [(JStr "U123", JStr "Bob"); (JStr "U456", JStr "carol")].
Definition sample_channels : dict := [(JStr "C1", JStr "general")].

(** The two export files of the sample channel. *)
Definition day1 : string := "export/general/2021-01-01.json".
Definition day2 : string := "export/general/2021-01-02.json".

(** An export as Slack lays it out: one directory per channel, the lookup
    tables one level up. [users.json] is missing. *)
Definition export_without_users : world :=
  sample_world
    [("export/general", ["2021-01-01.json"; "notes.txt"])]
    [("export/general/2021-01-01.json", JArr [alice_message "Hello <@U123>"]);
     ("export/channels.json", JArr [JObj [("id", JStr "C1"); ("name", JStr "general")]])].

(** The same layout with a user table whose first entry has an empty
    [display_name]. *)
Definition export_with_users (messages : list json) : world :=
  sample_world
    [("export/general", ["2021-01-02.json"; "2021-01-01.json"])]
    [("export/general/2021-01-01.json", JArr messages);
     ("export/general/2021-01-02.json", JArr [alice_message "Bye"]);
     ("export/users.json", JArr [JObj bob_entry; carol_entry]);
     ("export/channels.json", JArr [JObj [("id", JStr "C1"); ("name", JStr "general")]])].

(** The same layout with a user table whose second entry has no [id]. *)
Definition export_with_broken_users : world :=
  sample_world
    [("export/general", ["2021-01-01.json"])]
    [("export/general/2021-01-01.json", JArr [alice_message "Hello <@U123>"]);
     ("export/users.json", JArr [JObj bob_entry; JObj [("profile", JObj bob_profile)]])].

(** ** Vocabulary of the statements *)

(** The record has the field [key]. *)
Definition has_field (key : string) (fields : list (string * json)) : bool :=
  match assoc key fields with Some _ => true | None => false end.

(** The line printed for a record that is skipped. *)
Definition skip_warning : event :=
  Print "[WARNING] User information, timestamp, or message text missing".

(** The order [sorted] puts the paths in. *)
Definition path_le (a b : string) : Prop := String.leb a b = true.

(** * Properties *)

(** ** The primitives at work *)

Example replace_all_occurrences :
  PyStr.replace "<@U1>" "@Bob" "Hello <@U1>, <@U1><@U2>" = "Hello @Bob, @Bob<@U2>".
Proof. reflexivity. Qed.

Example replace_does_not_overlap : PyStr.replace "aa" "b" "aaaaa" = "bba".
Proof. reflexivity. Qed.

Example slice_to_bounds :
  PyStr.slice_to "abcdef" 2 = "ab"
  /\ PyStr.slice_to "abcdef" 9 = "abcdef"
  /\ PyStr.slice_to "abcdef" (-2) = "abcd"
  /\ PyStr.slice_to "abcdef" (-9) = "".
Proof. repeat split. Qed.

Example strip_newlines :
  PyStr.strip PyStr.LF (PyStr.nl ++ PyStr.nl ++ "a" ++ PyStr.nl ++ "b" ++ PyStr.nl)
  = "a" ++ PyStr.nl ++ "b".
Proof. reflexivity. Qed.

Example dirname_twice :
  PosixPath.dirname day1 = "export/general"
  /\ PosixPath.dirname (PosixPath.dirname day1) = "export"
  /\ PosixPath.dirname "a.json" = ""
  /\ PosixPath.dirname "/a.json" = "/".
Proof. repeat split. Qed.

Example join_paths :
  PosixPath.join "export" "users.json" = "export/users.json"
  /\ PosixPath.join "" "users.json" = "users.json"
  /\ PosixPath.join "export/" "users.json" = "export/users.json".
Proof. repeat split. Qed.

Example sorted_paths : sorted [day2; "export/a.json"; day1] = ["export/a.json"; day1; day2].
Proof. reflexivity. Qed.

(** The scenario of the specification: [Hello <@U123>] by Alice. *)
Example render_alice :
  import_message (export_with_users []) (Some sample_users) (Some sample_channels)
    (alice_message "Hello <@U123>")
  = ([CtxSend ("**Alice** *(01/01/2021 at 00:00:00)*" ++ PyStr.nl ++ "Hello @Bob");
      Print ("[INFO] Imported message: '**Alice** *(01/01/2021 at 00:00:00)*"
             ++ PyStr.nl ++ "Hello @Bob'");
      Sleep],
     inr tt).
Proof. reflexivity. Qed.

(** ** Strings *)

Lemma length_app (a b : string) :
  String.length (a ++ b) = String.length a + String.length b.
Proof. induction a as [|c a IH]; simpl; [reflexivity | now rewrite IH]. Qed.

Lemma length_take (n : nat) (s : string) :
  String.length (PyStr.take n s) <= n.
Proof.
  revert s; induction n as [|n IH]; intros s; simpl; [lia|].
  destruct s as [|c s]; simpl; [lia|]. specialize (IH s). lia.
Qed.

Lemma length_slice_to (s : string) (limit : Z) :
  (0 <= limit)%Z -> (Z.of_nat (String.length (PyStr.slice_to s limit)) <= limit)%Z.
Proof.
  intros Hl. unfold PyStr.slice_to.
  destruct (limit <? 0)%Z eqn:E; [apply Z.ltb_lt in E; lia|].
  pose proof (length_take (Z.to_nat limit) s). lia.
Qed.

Lemma length_lstrip (ch : ascii) (s : string) :
  String.length (PyStr.lstrip ch s) <= String.length s.
Proof.
  induction s as [|c s IH]; simpl; [lia|].
  destruct (Ascii.eqb c ch); simpl; lia.
Qed.

Lemma length_rstrip (ch : ascii) (s : string) :
  String.length (PyStr.rstrip ch s) <= String.length s.
Proof.
  induction s as [|c s IH]; simpl; [lia|].
  destruct (PyStr.rstrip ch s); simpl in *; [destruct (Ascii.eqb c ch); simpl; lia | lia].
Qed.

Lemma length_strip (ch : ascii) (s : string) :
  String.length (PyStr.strip ch s) <= String.length s.
Proof.
  unfold PyStr.strip.
  pose proof (length_lstrip ch (PyStr.rstrip ch s)).
  pose proof (length_rstrip ch s). lia.
Qed.

Lemma length_join_nl (a b : string) :
  String.length (PyStr.join_nl a b) = String.length a + 1 + String.length b.
Proof. unfold PyStr.join_nl. rewrite !length_app. simpl. lia. Qed.

Lemma startswith_refl (p q : string) : PyStr.startswith p (p ++ q) = true.
Proof.
  induction p as [|c p IH]; simpl; [reflexivity|].
  now rewrite Ascii.eqb_refl, IH.
Qed.

Lemma startswith_app (p s : string) :
  PyStr.startswith p s = true -> exists q, s = p ++ q.
Proof.
  revert s; induction p as [|c p IH]; intros s H; simpl in *.
  - now exists s.
  - destruct s as [|d s]; [discriminate|].
    apply andb_true_iff in H as [Hc Hs].
    apply Ascii.eqb_eq in Hc. subst d.
    destruct (IH _ Hs) as [q ->]. now exists q.
Qed.

(** A string that does not contain [old] is left alone by [replace]. *)
Lemma replace_from_absent (old new s : string) :
  PyStr.occurs old s = false -> PyStr.replace_from old new 0 s = s.
Proof.
  induction s as [|c s IH]; intros H; [reflexivity|].
  cbn [PyStr.occurs] in H. apply orb_false_iff in H as [Hp Ho].
  cbn [PyStr.replace_from]. rewrite Hp. now rewrite IH.
Qed.

Lemma replace_absent (old new s : string) :
  PyStr.occurs old s = false -> PyStr.replace old new s = s.
Proof.
  intros H. destruct old as [|c old].
  - destruct s; discriminate H.
  - now apply replace_from_absent.
Qed.

(** ** Message transformer *)

Section Transformer.

Variable W : world.

Lemma replace_refs_str (opening mark : string) (items : list (json * json)) :
  forall s, exists s', replace_refs W opening mark (JStr s) items = inr (JStr s').
Proof.
  induction items as [|entry items IH]; intros s; simpl.
  - now exists s.
  - apply IH.
Qed.

Lemma substitute_str (s : string) (users channels : dict) :
  exists s', substitute W (JStr s) (Some users) (Some channels) = inr (JStr s').
Proof.
  unfold substitute; simpl.
  destruct (replace_refs_str "<@" "@" users s) as [s1 ->]; simpl.
  apply replace_refs_str.
Qed.

Lemma replace_refs_absent (opening mark text : string) (items : list (json * json)) :
  (forall id name, In (id, name) items ->
     PyStr.occurs (opening ++ fmt W id ++ ">") text = false) ->
  replace_refs W opening mark (JStr text) items = inr (JStr text).
Proof.
  induction items as [|[id name] items IH]; intros H; simpl; [reflexivity|].
  rewrite replace_absent by (apply (H id name); now left).
  apply IH. intros id' name' Hin. apply (H id' name'). now right.
Qed.

(** C9. Substitution leaves a text without raw identifier tokens as it is:
    when no [<@id>] of the user map and no [<#id>] of the channel map occurs
    in the text, the two substitution loops return the same text. *)
Theorem substitute_without_tokens (text : string) (users channels : dict) :
  (forall uid name, In (uid, name) users ->
     PyStr.occurs ("<@" ++ fmt W uid ++ ">") text = false) ->
  (forall cid name, In (cid, name) channels ->
     PyStr.occurs ("<#" ++ fmt W cid ++ ">") text = false) ->
  substitute W (JStr text) (Some users) (Some channels) = inr (JStr text).
Proof.
  intros Hu Hc. unfold substitute; simpl.
  rewrite (replace_refs_absent "<@" "@" text users Hu); simpl.
  now apply replace_refs_absent.
Qed.

Lemma length_truncate_and_append (s block : string) :
  String.length block <= 1940 ->
  exists final, truncate_and_append (JStr s) block = inr final
    /\ String.length final <= 1941.
Proof.
  intros Hb. unfold truncate_and_append. eexists; split; [reflexivity|].
  set (limit := (MAX_MESSAGE_SIZE - Z.of_nat (String.length block))%Z).
  assert (Hl : (0 <= limit)%Z) by (unfold limit, MAX_MESSAGE_SIZE; lia).
  pose proof (length_slice_to s limit Hl) as Hs.
  pose proof (length_strip PyStr.LF (PyStr.join_nl (PyStr.slice_to s limit) block)) as Ht.
  rewrite length_join_nl in Ht.
  unfold limit, MAX_MESSAGE_SIZE in *. lia.
Qed.

(** C2, amended. When the attachment block is at most 1940 characters long,
    [fill_references] returns a text of at most 1941 characters, which is
    within [1940 + len("\n" + block)] and within the 2000 characters of the
    transport. *)
Theorem fill_references_length (body : string) (users channels : dict)
  (files : list json) (block : string) :
  join_files "" files = inr block ->
  String.length block <= 1940 ->
  exists final,
    fill_references W (JStr body) (Some users) (Some channels) files = inr final
    /\ String.length final <= 1940 + String.length (PyStr.nl ++ block)
    /\ String.length final <= 1941
    /\ String.length final <= 2000.
Proof.
  intros Hj Hb. unfold fill_references.
  destruct (substitute_str body users channels) as [s' ->]; cbn [ebind].
  rewrite Hj; cbn [ebind].
  destruct (length_truncate_and_append s' block Hb) as [final [-> Hlen]].
  exists final. rewrite length_app. simpl. repeat split; lia.
Qed.

(** With a negative bound the slice drops characters from the end instead
    of emptying the text. *)
Lemma length_slice_to_negative (s : string) (limit : Z) :
  (limit < 0)%Z -> (- limit < Z.of_nat (String.length s))%Z ->
  PyStr.slice_to s limit <> "".
Proof.
  intros Hn Hlen. unfold PyStr.slice_to.
  apply Z.ltb_lt in Hn. rewrite Hn. apply Z.ltb_lt in Hn.
  destruct s as [|c s]; simpl String.length in *; [lia|].
  destruct (Z.to_nat (Z.max 0 (Z.of_nat (S (String.length s)) + limit))) eqn:E; [lia|].
  simpl. discriminate.
Qed.

End Transformer.

(** C9 at [Hello @Bob] with the user map [{U123: Bob}]. *)
Lemma substitute_without_tokens_witness :
  substitute empty_world (JStr "Hello @Bob") (Some [(JStr "U123", JStr "Bob")]) (Some [])
  = inr (JStr "Hello @Bob").
Proof.
  apply (substitute_without_tokens empty_world "Hello @Bob" [(JStr "U123", JStr "Bob")] []).
  - intros uid name [H|[]]. inversion H. reflexivity.
  - intros cid name [].
Defined.

(** C2 at a 3000-character body with one attachment. *)
Lemma fill_references_length_witness :
  exists final,
    fill_references empty_world (JStr (repeat_char "x" 3000)) (Some [(JStr "U1", JStr "Bob")])
      (Some []) [JStr "https://files.example/a.txt"] = inr final
    /\ String.length final <= 1940 + String.length (PyStr.nl ++ PyStr.nl ++ "https://files.example/a.txt")
    /\ String.length final <= 1941
    /\ String.length final <= 2000.
Proof.
  apply (fill_references_length empty_world (repeat_char "x" 3000) [(JStr "U1", JStr "Bob")] []
           [JStr "https://files.example/a.txt"] (PyStr.nl ++ "https://files.example/a.txt")).
  - reflexivity.
  - apply Nat.leb_le. vm_compute. reflexivity.
Defined.

(** C2 as stated fails: an attachment block longer than the transport's
    limit is returned whole, here 2001 characters for an empty body. *)
Lemma fill_references_exceeds_limit :
  fill_references empty_world (JStr "") (Some []) (Some []) [JStr (repeat_char "a" 2001)]
  = inr (repeat_char "a" 2001)
  /\ 2000 < String.length (repeat_char "a" 2001).
Proof.
  split; [vm_compute; reflexivity|].
  apply Nat.ltb_lt. vm_compute. reflexivity.
Qed.

(** C3 at a three-character body and one 1940-character URL: the block has
    1941 characters, the bound is [-1], and the slice keeps ["ab"]. *)
Theorem fill_references_negative_limit_keeps_body :
  fill_references empty_world (JStr "abc") (Some []) (Some []) [JStr (repeat_char "a" 1940)]
  = inr ("ab" ++ PyStr.nl ++ PyStr.nl ++ repeat_char "a" 1940).
Proof. vm_compute. reflexivity. Qed.

(** ** The monad *)

Lemma bind_inr_inv {A B : Type} (c : M A) (k : A -> M B) (evs : list event) (b : B) :
  bind c k = (evs, inr b) ->
  exists evs1 a evs2, c = (evs1, inr a) /\ k a = (evs2, inr b) /\ evs = (evs1 ++ evs2)%list.
Proof.
  destruct c as [evs1 [e|a]]; simpl; [discriminate|].
  destruct (k a) as [evs2 r] eqn:E. intros H; inversion H; subst.
  now exists evs1, a, evs2.
Qed.

Lemma bind_lift_inr {A B : Type} (r : result A) (a : A) (k : A -> M B) :
  r = inr a -> bind (lift r) k = k a.
Proof. intros ->. unfold lift; simpl. now destruct (k a). Qed.

Lemma bind_lift_inl {A B : Type} (r : result A) (e : exn) (k : A -> M B) :
  r = inl e -> bind (lift r) k = ([], inl e).
Proof. now intros ->. Qed.

Lemma for_each_cons {A : Type} (body : A -> M unit) (a : A) (rest : list A) :
  outcome (body a) = inr tt ->
  for_each body (a :: rest)
  = ((trace (body a) ++ trace (for_each body rest))%list, outcome (for_each body rest)).
Proof.
  simpl. destruct (body a) as [evs [e|[]]]; simpl; [discriminate|].
  intros _. now destruct (for_each body rest).
Qed.

Lemma for_each_all {A : Type} (body : A -> M unit) (l : list A) :
  Forall (fun a => outcome (body a) = inr tt) l ->
  for_each body l = (flat_map (fun a => trace (body a)) l, inr tt).
Proof.
  induction 1 as [|a l Ha _ IH]; [reflexivity|].
  rewrite for_each_cons by assumption. now rewrite IH.
Qed.

(** The loop stops at the first element whose body raises. *)
Lemma for_each_stops {A : Type} (body : A -> M unit) (before after : list A) (a : A)
  (evs : list event) (e : exn) :
  Forall (fun x => outcome (body x) = inr tt) before ->
  body a = (evs, inl e) ->
  for_each body (before ++ a :: after)
  = ((flat_map (fun x => trace (body x)) before ++ evs)%list, inl e).
Proof.
  intros Hb Ha. induction Hb as [|x before Hx _ IH]; simpl app.
  - simpl. now rewrite Ha.
  - rewrite for_each_cons by assumption. rewrite IH. simpl.
    now rewrite app_assoc.
Qed.

(** ** Import orchestrator *)

Section Orchestrator.

Variable W : world.
Variables users channels : option dict.

(** Whatever happens inside, the [try] of [import_file] returns. *)
Lemma import_file_returns (json_file : string) :
  outcome (import_file W users channels json_file) = inr tt.
Proof.
  unfold import_file, emit, bind, try_catch, lift.
  destruct (json_load W json_file) as [e|document]; [reflexivity|].
  destruct (py_iter document) as [e|messages]; [reflexivity|].
  destruct (for_each _ messages) as [evs [e|[]]]; reflexivity.
Qed.

Lemma import_file_all (json_file : string) (document : json) (messages : list json) :
  json_load W json_file = inr document ->
  py_iter document = inr messages ->
  Forall (fun m => outcome (import_message W users channels m) = inr tt) messages ->
  import_file W users channels json_file
  = (Print ("[INFO] Parsing file: " ++ json_file)
       :: flat_map (fun m => trace (import_message W users channels m)) messages,
     inr tt).
Proof.
  intros Hl Hi Hok. unfold import_file.
  rewrite (bind_lift_inr _ _ _ Hl), (bind_lift_inr _ _ _ Hi), (for_each_all _ _ Hok).
  reflexivity.
Qed.

(** A message that raises ends its file: the error is printed and the
    messages after it are not looked at. *)
Lemma import_file_aborts (json_file : string) (document : json)
  (before after : list json) (message : json) (evs : list event) (e : exn) :
  json_load W json_file = inr document ->
  py_iter document = inr (before ++ message :: after)%list ->
  Forall (fun m => outcome (import_message W users channels m) = inr tt) before ->
  import_message W users channels message = (evs, inl e) ->
  import_file W users channels json_file
  = (Print ("[INFO] Parsing file: " ++ json_file)
       :: (flat_map (fun m => trace (import_message W users channels m)) before ++ evs)
       ++ [PrintError "[ERROR] " e],
     inr tt).
Proof.
  intros Hl Hi Hok Hm. unfold import_file.
  rewrite (bind_lift_inr _ _ _ Hl), (bind_lift_inr _ _ _ Hi).
  rewrite (for_each_stops _ before after message evs e Hok Hm). reflexivity.
Qed.

(** The loop over the files goes on after each file. *)
Lemma import_files_cons (json_file : string) (rest : list string) :
  for_each (import_file W users channels) (json_file :: rest)
  = ((trace (import_file W users channels json_file)
       ++ trace (for_each (import_file W users channels) rest))%list,
     outcome (for_each (import_file W users channels) rest)).
Proof. apply for_each_cons, import_file_returns. Qed.

Lemma import_files_all (json_files : list string) :
  for_each (import_file W users channels) json_files
  = (flat_map (fun p => trace (import_file W users channels p)) json_files, inr tt).
Proof.
  apply for_each_all, Forall_forall. intros p _. apply import_file_returns.
Qed.

Lemma has_required_fields_obj (fields : list (string * json)) :
  has_required_fields (JObj fields)
  = inr (has_field "ts" fields && has_field "text" fields
         && (has_field "user_profile" fields || has_field "user" fields)).
Proof.
  unfold has_required_fields, has_field; simpl.
  destruct (assoc "ts" fields), (assoc "text" fields),
    (assoc "user_profile" fields), (assoc "user" fields); reflexivity.
Qed.

(** C7. A record without [ts], without [text], or with neither
    [user_profile] nor [user] only prints the warning, and the loop goes on
    with the next message of the file. *)
Theorem invalid_record_is_skipped (fields : list (string * json)) (rest : list json) :
  assoc "ts" fields = None \/ assoc "text" fields = None
  \/ (assoc "user_profile" fields = None /\ assoc "user" fields = None) ->
  import_message W users channels (JObj fields) = ([skip_warning], inr tt)
  /\ for_each (import_message W users channels) (JObj fields :: rest)
     = (skip_warning :: trace (for_each (import_message W users channels) rest),
        outcome (for_each (import_message W users channels) rest)).
Proof.
  intros H.
  assert (Hm : import_message W users channels (JObj fields) = ([skip_warning], inr tt)).
  { unfold import_message. rewrite has_required_fields_obj. unfold has_field.
    destruct H as [-> | [-> | [-> ->]]]; simpl;
      repeat match goal with |- context [assoc ?k fields] => destruct (assoc k fields) end;
      reflexivity. }
  split; [exact Hm|].
  rewrite for_each_cons by (rewrite Hm; reflexivity).
  now rewrite Hm.
Qed.

(** The author lookup of a record that names its author by a bare
    identifier fails when the table has no entry for it, or is missing. *)
Lemma author_name_unknown (fields : list (string * json)) (u : string) :
  assoc "user_profile" fields = None ->
  assoc "user" fields = Some (JStr u) ->
  (forall d, users = Some d -> dict_find d (JStr u) = None) ->
  author_name users (JObj fields)
  = inl (match users with Some _ => KeyError | None => TypeError end).
Proof.
  intros Hp Hu Hd. unfold author_name; simpl. rewrite Hp, Hu; simpl.
  destruct users as [d|]; simpl; [|reflexivity].
  now rewrite (Hd d eq_refl).
Qed.

(** C4. A record whose author is a bare user identifier without an entry in
    the user table raises in the author lookup, before anything is sent for
    it; the [try] of the file prints the error, the later messages of the
    file are not processed, and the loop over the files goes on. *)
Theorem author_lookup_error_aborts_file (json_file : string) (document : json)
  (before after : list json) (fields : list (string * json)) (u : string)
  (rest : list string) :
  json_load W json_file = inr document ->
  py_iter document = inr (before ++ JObj fields :: after)%list ->
  Forall (fun m => outcome (import_message W users channels m) = inr tt) before ->
  assoc "ts" fields <> None ->
  assoc "text" fields <> None ->
  assoc "user_profile" fields = None ->
  assoc "user" fields = Some (JStr u) ->
  (forall d, users = Some d -> dict_find d (JStr u) = None) ->
  exists e,
    author_name users (JObj fields) = inl e
    /\ import_message W users channels (JObj fields) = ([], inl e)
    /\ import_file W users channels json_file
       = (Print ("[INFO] Parsing file: " ++ json_file)
            :: flat_map (fun m => trace (import_message W users channels m)) before
            ++ [PrintError "[ERROR] " e],
          inr tt)
    /\ for_each (import_file W users channels) (json_file :: rest)
       = ((trace (import_file W users channels json_file)
            ++ trace (for_each (import_file W users channels) rest))%list,
          outcome (for_each (import_file W users channels) rest)).
Proof.
  intros Hl Hi Hok Hts Htext Hp Hu Hd.
  pose proof (author_name_unknown fields u Hp Hu Hd) as Ha.
  eexists. split; [exact Ha|].
  assert (Hm : import_message W users channels (JObj fields)
               = ([], inl (match users with Some _ => KeyError | None => TypeError end))).
  { unfold import_message. rewrite has_required_fields_obj. unfold has_field.
    rewrite Hu. destruct (assoc "ts" fields); [|contradiction].
    destruct (assoc "text" fields); [|contradiction].
    rewrite orb_true_r. simpl andb.
    rewrite (bind_lift_inr _ true _ eq_refl).
    now rewrite (bind_lift_inl _ _ _ Ha). }
  split; [exact Hm|]. split.
  - rewrite (import_file_aborts json_file document before after _ _ _ Hl Hi Hok Hm).
    now rewrite app_nil_r.
  - apply import_files_cons.
Qed.

End Orchestrator.

(** ** Attachment URLs that are missing *)

Lemma url_private_of_descriptors (infos : list json) :
  Forall (fun f => exists fs, f = JObj fs) infos ->
  exists urls,
    url_private_of infos = inr urls
    /\ (Exists (fun f => exists fs, f = JObj fs /\ assoc "url_private" fs = None) infos ->
        In JNull urls).
Proof.
  induction 1 as [|f infos [fs ->] _ [urls [IH Hin]]].
  - exists []. split; [reflexivity|]. intros H; inversion H.
  - simpl. rewrite IH. simpl. eexists; split; [reflexivity|].
    intros H. inversion H as [? ? [fs' [Heq Hnone]] | ? ? Hex]; subst.
    + inversion Heq; subst. rewrite Hnone. now left.
    + right. now apply Hin.
Qed.

(** ['\n'.join] raises on the first entry that is not a string. *)
Lemma join_files_rejects_null (urls : list json) :
  In JNull urls -> forall files_msg, join_files files_msg urls = inl TypeError.
Proof.
  induction urls as [|v urls IH]; intros Hin files_msg; [inversion Hin|].
  destruct Hin as [-> | Hin]; [reflexivity|].
  simpl. destruct v; try reflexivity. now apply IH.
Qed.

Lemma author_name_needs_author (users : option dict) (fields : list (string * json))
  (username : json) :
  author_name users (JObj fields) = inr username ->
  has_field "user_profile" fields || has_field "user" fields = true.
Proof.
  unfold author_name, has_field; simpl.
  destruct (assoc "user_profile" fields); [reflexivity|].
  destruct (assoc "user" fields); [reflexivity|discriminate].
Qed.

Section MissingUrl.

Variable W : world.
Variables users channels : dict.

(** C10. A record that is valid otherwise, and whose [files] list holds a
    descriptor without [url_private], puts [None] into the URL list; the
    join in [fill_references] raises [TypeError] before anything is sent,
    the [try] of the file prints it, the later messages of the file are not
    processed, and the loop over the files goes on. *)
Theorem missing_url_private_aborts_file (json_file : string) (document : json)
  (before after : list json) (fields : list (string * json))
  (ts username : json) (timestamp text : string) (infos : list json)
  (rest : list string) :
  json_load W json_file = inr document ->
  py_iter document = inr (before ++ JObj fields :: after)%list ->
  Forall (fun m => outcome (import_message W (Some users) (Some channels) m) = inr tt) before ->
  assoc "ts" fields = Some ts ->
  strftime_ts W ts = inr timestamp ->
  assoc "text" fields = Some (JStr text) ->
  author_name (Some users) (JObj fields) = inr username ->
  assoc "files" fields = Some (JArr infos) ->
  Forall (fun f => exists fs, f = JObj fs) infos ->
  Exists (fun f => exists fs, f = JObj fs /\ assoc "url_private" fs = None) infos ->
  exists urls,
    url_private_of infos = inr urls
    /\ In JNull urls
    /\ fill_references W (JStr text) (Some users) (Some channels) urls = inl TypeError
    /\ import_message W (Some users) (Some channels) (JObj fields) = ([], inl TypeError)
    /\ import_file W (Some users) (Some channels) json_file
       = (Print ("[INFO] Parsing file: " ++ json_file)
            :: flat_map (fun m => trace (import_message W (Some users) (Some channels) m)) before
            ++ [PrintError "[ERROR] " TypeError],
          inr tt)
    /\ for_each (import_file W (Some users) (Some channels)) (json_file :: rest)
       = ((trace (import_file W (Some users) (Some channels) json_file)
            ++ trace (for_each (import_file W (Some users) (Some channels)) rest))%list,
          outcome (for_each (import_file W (Some users) (Some channels)) rest)).
Proof.
  intros Hl Hi Hok Hts Hfmt Htext Hauthor Hfiles Hobjs Hmissing.
  destruct (url_private_of_descriptors infos Hobjs) as [urls [Hurls Hin]].
  specialize (Hin Hmissing).
  assert (Hfill : fill_references W (JStr text) (Some users) (Some channels) urls
                  = inl TypeError).
  { unfold fill_references.
    destruct (substitute_str W text users channels) as [s' ->]; cbn [ebind].
    now rewrite (join_files_rejects_null urls Hin). }
  assert (Hm : import_message W (Some users) (Some channels) (JObj fields)
               = ([], inl TypeError)).
  { unfold import_message. rewrite has_required_fields_obj.
    rewrite (author_name_needs_author _ _ _ Hauthor).
    unfold has_field at 1 2. rewrite Hts, Htext. simpl andb.
    rewrite (bind_lift_inr _ true _ eq_refl).
    rewrite (bind_lift_inr _ _ _ Hauthor).
    rewrite (bind_lift_inr (py_getitem (JObj fields) "ts") ts)
      by (simpl; now rewrite Hts).
    rewrite (bind_lift_inr _ _ _ Hfmt).
    rewrite (bind_lift_inr (message_files (JObj fields)) infos)
      by (unfold message_files; simpl; now rewrite Hfiles).
    rewrite (bind_lift_inr _ _ _ Hurls).
    rewrite (bind_lift_inr (py_getitem (JObj fields) "text") (JStr text))
      by (simpl; now rewrite Htext).
    now rewrite (bind_lift_inl _ _ _ Hfill). }
  exists urls. repeat split; try assumption.
  - rewrite (import_file_aborts W _ _ json_file document before after _ _ _ Hl Hi Hok Hm).
    now rewrite app_nil_r.
  - apply import_files_cons.
Qed.

End MissingUrl.

(** ** Order of the export files *)

Lemma ascii_compare_refl (c : ascii) : Ascii.compare c c = Eq.
Proof. apply N.compare_refl. Qed.

Lemma ascii_compare_lt_trans (a b c : ascii) :
  Ascii.compare a b = Lt -> Ascii.compare b c = Lt -> Ascii.compare a c = Lt.
Proof.
  unfold Ascii.compare. rewrite !N.compare_lt_iff. apply N.lt_trans.
Qed.

Lemma string_compare_trans (a : string) :
  forall b c, String.compare a b <> Gt -> String.compare b c <> Gt ->
              String.compare a c <> Gt.
Proof.
  induction a as [|x a IH]; intros [|y b] [|z c]; simpl; try congruence.
  destruct (Ascii.compare x y) eqn:Exy; try congruence;
    destruct (Ascii.compare y z) eqn:Eyz; try congruence; intros Hab Hbc.
  - apply Ascii.compare_eq_iff in Exy, Eyz. subst.
    rewrite ascii_compare_refl. now apply (IH b c).
  - apply Ascii.compare_eq_iff in Exy. subst. now rewrite Eyz.
  - apply Ascii.compare_eq_iff in Eyz. subst. now rewrite Exy.
  - now rewrite (ascii_compare_lt_trans x y z Exy Eyz).
Qed.

Lemma path_le_trans (a b c : string) : path_le a b -> path_le b c -> path_le a c.
Proof.
  unfold path_le, String.leb. intros Hab Hbc.
  pose proof (string_compare_trans a b c) as H.
  destruct (String.compare a b); try discriminate;
    destruct (String.compare b c); try discriminate;
    destruct (String.compare a c); try reflexivity;
    exfalso; apply H; congruence.
Qed.

Lemma insert_sorted_perm (x : string) (l : list string) :
  Permutation (x :: l) (insert_sorted x l).
Proof.
  induction l as [|y l IH]; simpl; [apply Permutation_refl|].
  destruct (String.leb x y); [apply Permutation_refl|].
  eapply perm_trans; [apply perm_swap|]. now apply perm_skip.
Qed.

Lemma sorted_perm (l : list string) : Permutation l (sorted l).
Proof.
  induction l as [|x l IH]; simpl; [apply perm_nil|].
  eapply perm_trans; [apply perm_skip, IH|]. apply insert_sorted_perm.
Qed.

Lemma insert_sorted_ordered (x : string) (l : list string) :
  StronglySorted path_le l -> StronglySorted path_le (insert_sorted x l).
Proof.
  induction 1 as [|y l Hs IH Hy]; simpl.
  - constructor; constructor.
  - destruct (String.leb x y) eqn:E.
    + constructor; [now constructor|].
      constructor; [exact E|].
      eapply Forall_impl; [|exact Hy]. intros z Hz. now apply (path_le_trans x y z).
    + constructor; [exact IH|].
      assert (Hyx : path_le y x).
      { destruct (String.leb_total x y) as [H|H]; [congruence|exact H]. }
      apply (Permutation_Forall (insert_sorted_perm x l)).
      now constructor.
Qed.

Lemma sorted_ordered (l : list string) : StronglySorted path_le (sorted l).
Proof.
  induction l as [|x l IH]; simpl; [constructor|].
  now apply insert_sorted_ordered.
Qed.

Lemma sorted_nonempty (l : list string) : l <> [] -> sorted l <> [].
Proof.
  intros Hl Hs. apply Hl. apply Permutation_nil.
  rewrite <- Hs. apply Permutation_sym, sorted_perm.
Qed.

Lemma bind_val {A B : Type} (a : A) (k : A -> M B) : bind (lift (inr a)) k = k a.
Proof. now apply bind_lift_inr. Qed.

Lemma bind_raise {A B : Type} (e : exn) (k : A -> M B) :
  bind (lift (inl e)) k = ([], inl e).
Proof. reflexivity. Qed.

Lemma bind_emit {B : Type} (ev : event) (k : unit -> M B) :
  bind (emit ev) k = (ev :: trace (k tt), outcome (k tt)).
Proof. unfold bind, emit. now destruct (k tt). Qed.

Lemma bind_ret {A B : Type} (a : A) (k : A -> M B) : bind (ret a) k = k a.
Proof. unfold bind, ret. now destruct (k a). Qed.

Lemma bind_pair {A B : Type} (evs : list event) (a : A) (k : A -> M B) :
  bind (evs, inr a) k = ((evs ++ trace (k a))%list, outcome (k a)).
Proof. unfold bind. now destruct (k a). Qed.

Lemma bind_assoc {A B C : Type} (c : M A) (f : A -> M B) (g : B -> M C) :
  bind (bind c f) g = bind c (fun a => bind (f a) g).
Proof.
  destruct c as [evs [e|a]]; [reflexivity|]. simpl.
  destruct (f a) as [evs1 [e|b]]; [reflexivity|]. simpl.
  destruct (g b) as [evs2 r]. now rewrite app_assoc.
Qed.

Ltac step :=
  match goal with
  | |- context [bind (lift ?r) _] =>
      destruct r eqn:?; [rewrite bind_raise | rewrite bind_val]
  end.

Section Order.

Variable W : world.

(** A valid record that is processed to the end sends its own text first. *)
Lemma import_message_sends_first (users channels : option dict) (message : json) :
  has_required_fields message = inr true ->
  outcome (import_message W users channels message) = inr tt ->
  exists msg evs, trace (import_message W users channels message) = CtxSend msg :: evs.
Proof.
  intros Hv. unfold import_message. rewrite Hv, bind_val.
  repeat (step; [discriminate|]).
  rewrite bind_emit. intros _. eexists; eexists; reflexivity.
Qed.

Lemma get_display_names_returns (p : string) (rest : list string) :
  exists evs users, get_display_names W (p :: rest) = (evs, inr users).
Proof.
  unfold get_display_names. rewrite bind_emit. simpl first_path. rewrite bind_val.
  destruct (locate_table W "users.json" p) as [file_path|].
  - unfold try_catch.
    repeat (step; [simpl; eexists; eexists; reflexivity|]).
    destruct (add_users W [] _) as [evs [e|users]]; simpl; eexists; eexists; reflexivity.
  - simpl. eexists; eexists; reflexivity.
Qed.

Lemma get_channel_names_returns (p : string) (rest : list string) :
  exists evs channels, get_channel_names W (p :: rest) = (evs, inr channels).
Proof.
  unfold get_channel_names. rewrite bind_emit. simpl first_path. rewrite bind_val.
  destruct (locate_table W "channels.json" p) as [file_path|].
  - unfold try_catch.
    repeat (step; [simpl; eexists; eexists; reflexivity|]).
    destruct (add_channels W [] _) as [evs [e|channels]]; simpl; eexists; eexists; reflexivity.
  - simpl. eexists; eexists; reflexivity.
Qed.

(** The files of one path argument are imported in the order of
    [sorted], between the lines of the lookup and the closing line. *)
Lemma import_path_trace (path : string) :
  json_files_at W path <> [] ->
  exists pre users channels,
    import_path W path
    = ((pre
        ++ flat_map (fun p => trace (import_file W users channels p))
             (sorted (json_files_at W path))
        ++ [Print "[INFO] Import complete"])%list,
       inr tt).
Proof.
  intros Hne. unfold import_path, get_file_paths.
  destruct (json_files_at W path) as [|p rest] eqn:E; [contradiction|].
  destruct (get_display_names_returns p rest) as [evs1 [users Hu]].
  destruct (get_channel_names_returns p rest) as [evs2 [channels Hc]].
  exists ([Print ("[INFO] Attempting to import '" ++ path ++ "' to channel '#"
                  ++ channel_name W ++ "'");
           Print ("[INFO] " ++ str_of_nat (List.length (p :: rest)) ++ " .json files loaded")]
          ++ evs1
          ++ [Print (if dict_truthy users
                     then "[INFO] users.json found - attempting to fill @mentions"
                     else "[WARNING] No users.json found - @mentions will contain user IDs instead of display names")]
          ++ evs2
          ++ [Print (if dict_truthy channels
                     then "[INFO] channels.json found - attempting to fill #channel references"
                     else "[WARNING] No channels.json found - #channel references will contain user IDs instead of names")])%list,
    users, channels.
  rewrite bind_emit, bind_assoc, bind_emit. cbn beta.
  rewrite bind_ret. cbn iota.
  rewrite Hu, bind_pair, bind_emit, Hc, bind_pair, bind_emit.
  rewrite (import_files_all W users channels), bind_pair.
  cbn [trace outcome fst snd emit app].
  repeat (rewrite <- app_assoc || rewrite <- app_comm_cons). reflexivity.
Qed.

End Order.

(** C5. The trace of an export file whose messages are all processed to
    the end is the concatenation of the traces of its messages in array
    order, whatever their [ts]; each valid one sends its own text first.
    The export files of one path argument are imported in the order of
    [sorted], which is the ascending rearrangement of the located paths. *)
Theorem sends_follow_input_order (W : world) (users channels : option dict)
  (path json_file : string) (document : json) (messages : list json) :
  json_load W json_file = inr document ->
  py_iter document = inr messages ->
  Forall (fun m => outcome (import_message W users channels m) = inr tt) messages ->
  json_files_at W path <> [] ->
  import_file W users channels json_file
  = (Print ("[INFO] Parsing file: " ++ json_file)
       :: flat_map (fun m => trace (import_message W users channels m)) messages,
     inr tt)
  /\ Forall (fun m => has_required_fields m = inr true ->
               exists msg evs,
                 trace (import_message W users channels m) = CtxSend msg :: evs)
       messages
  /\ (exists pre us cs,
        import_path W path
        = ((pre
            ++ flat_map (fun p => trace (import_file W us cs p))
                 (sorted (json_files_at W path))
            ++ [Print "[INFO] Import complete"])%list,
           inr tt))
  /\ StronglySorted path_le (sorted (json_files_at W path))
  /\ Permutation (json_files_at W path) (sorted (json_files_at W path)).
Proof.
  intros Hl Hi Hok Hne. repeat split.
  - now apply (import_file_all W users channels json_file document messages).
  - eapply Forall_impl; [|exact Hok]. intros m Hm Hv.
    now apply import_message_sends_first.
  - now apply import_path_trace.
  - apply sorted_ordered.
  - apply sorted_perm.
Qed.

(** ** Export locator *)

Lemma drop_app_length (q p : string) : PyStr.drop (String.length q) (q ++ p) = p.
Proof. induction q as [|c q IH]; simpl; [now destruct p | exact IH]. Qed.

Lemma take_drop (n : nat) (s : string) : s = PyStr.take n s ++ PyStr.drop n s.
Proof.
  revert s; induction n as [|n IH]; intros [|c s]; simpl; try reflexivity.
  now rewrite <- IH.
Qed.

(** [endswith] holds of the strings that are something followed by [p]. *)
Lemma endswith_spec (p s : string) :
  PyStr.endswith p s = true <-> exists q, s = q ++ p.
Proof.
  unfold PyStr.endswith. split.
  - intros H. apply andb_true_iff in H as [_ H]. apply String.eqb_eq in H.
    exists (PyStr.take (String.length s - String.length p) s).
    transitivity (PyStr.take (String.length s - String.length p) s
                  ++ PyStr.drop (String.length s - String.length p) s);
      [apply take_drop | now rewrite H].
  - intros [q ->]. rewrite length_app. apply andb_true_iff. split.
    + apply Nat.leb_le. lia.
    + replace (String.length q + String.length p - String.length p)
        with (String.length q) by lia.
      rewrite drop_app_length. apply String.eqb_refl.
Qed.

(** C6, amended. [get_file_paths] returns: for a directory, the joined
    paths of exactly its entries whose names end in [.json]; otherwise, for
    a path that ends in [.json], that path alone, whether or not it exists;
    otherwise nothing. *)
Theorem get_file_paths_result (W : world) (file_path : string) :
  exists json_files,
    outcome (get_file_paths W file_path) = inr json_files
    /\ if isdir W file_path
       then forall f, In f json_files <->
              exists name, In name (listdir W file_path)
                           /\ PyStr.endswith ".json" name = true
                           /\ f = PosixPath.join file_path name
       else if PyStr.endswith ".json" file_path
            then json_files = [file_path]
            else json_files = [].
Proof.
  exists (json_files_at W file_path). split.
  - unfold get_file_paths. destruct (json_files_at W file_path); reflexivity.
  - unfold json_files_at. destruct (isdir W file_path).
    + intros f. rewrite in_map_iff. split.
      * intros [name [Hf Hin]]. apply filter_In in Hin as [Hin He].
        exists name. now repeat split.
      * intros [name [Hin [He Hf]]]. exists name. split; [now symmetry|].
        apply filter_In. now split.
    + destruct (PyStr.endswith ".json" file_path); reflexivity.
Qed.

(** C6 as stated fails: a path that does not exist but ends in [.json] is
    returned as a singleton. *)
Lemma get_file_paths_missing_file :
  isdir empty_world "missing.json" = false
  /\ isfile empty_world "missing.json" = false
  /\ outcome (get_file_paths empty_world "missing.json") = inr ["missing.json"].
Proof. repeat split. Qed.

(** ** Lookup tables that are missing *)

Lemma replace_refs_error (W : world) (opening mark : string) (items : list (json * json)) :
  forall message e, replace_refs W opening mark message items = inl e -> e = AttributeError.
Proof.
  induction items as [|entry items IH]; intros message e; simpl; [discriminate|].
  destruct message; simpl; try (intros H; now inversion H).
  apply IH.
Qed.

(** [None] has no [items]: without a table the transformer raises. *)
Lemma fill_references_needs_tables (W : world) (raw : json) (users channels : option dict)
  (files : list json) :
  users = None \/ channels = None ->
  fill_references W raw users channels files = inl AttributeError.
Proof.
  unfold fill_references, substitute. intros [-> | ->]; [reflexivity|].
  destruct users as [items|]; [|reflexivity]. simpl.
  destruct (replace_refs W "<@" "@" raw items) as [e|message] eqn:E; simpl.
  - now rewrite (replace_refs_error W _ _ _ _ _ E).
  - reflexivity.
Qed.

(** Without one of the tables no record is sent: a record is skipped with
    the warning, or raises before [ctx.send]. *)
Lemma import_message_needs_tables (W : world) (users channels : option dict)
  (message : json) :
  users = None \/ channels = None ->
  import_message W users channels message = ([skip_warning], inr tt)
  \/ exists e, import_message W users channels message = ([], inl e).
Proof.
  intros Hnone. unfold import_message.
  step; [right; eexists; reflexivity|].
  match goal with |- context [if ?b then _ else _] => destruct b end;
    [|left; reflexivity].
  right.
  repeat (step; [eexists; reflexivity|]).
  match goal with
  | H : fill_references _ _ _ _ _ = inr _ |- _ =>
      rewrite (fill_references_needs_tables _ _ _ _ _ Hnone) in H; discriminate
  end.
Qed.

(** C1 at an export without [users.json] and with one valid message: the
    table is reported missing, the message raises [AttributeError] in
    [fill_references], and nothing is sent. *)
Theorem import_without_users_sends_nothing :
  import_here export_without_users ["export/general"]
  = ([Print "[INFO] Attempting to import 'export/general' to channel '#general'";
      Print "[INFO] 1 .json files loaded";
      Print "[INFO] Attempting to locate users.json";
      Print "[ERROR] Unable to locate users.json";
      Print "[WARNING] No users.json found - @mentions will contain user IDs instead of display names";
      Print "[INFO] Attempting to locate channels.json";
      Print (PyStr.tab ++ "Channel ID: C1 -> Channel Name: general");
      Print "[INFO] channels.json found - attempting to fill #channel references";
      Print "[INFO] Parsing file: export/general/2021-01-01.json";
      PrintError "[ERROR] " AttributeError;
      Print "[INFO] Import complete"],
     inr tt).
Proof. vm_compute. reflexivity. Qed.

(** ** Identity resolver *)

Lemma key_eqb_str_l (k : json) (u : string) : key_eqb k (JStr u) = true -> k = JStr u.
Proof.
  destruct k; simpl; try discriminate. intros H. apply String.eqb_eq in H. now subst.
Qed.

Lemma key_eqb_str_r (k : json) (u : string) : key_eqb (JStr u) k = true -> k = JStr u.
Proof.
  destruct k; simpl; try discriminate. intros H. apply String.eqb_eq in H. now subst.
Qed.

Lemma dict_find_put_same (d : dict) (u : string) (v : json) :
  dict_find (dict_put d (JStr u) v) (JStr u) = Some v.
Proof.
  induction d as [|[k' v'] d IH]; simpl.
  - now rewrite String.eqb_refl.
  - destruct (key_eqb k' (JStr u)) eqn:E; simpl; now rewrite E.
Qed.

Lemma dict_find_put_other (d : dict) (k v : json) (u : string) :
  k <> JStr u ->
  dict_find (dict_put d k v) (JStr u) = dict_find d (JStr u).
Proof.
  intros Hk. induction d as [|[k' v'] d IH]; simpl.
  - destruct (key_eqb k (JStr u)) eqn:E; [|reflexivity].
    now apply key_eqb_str_l in E.
  - destruct (key_eqb k' k) eqn:E1; simpl;
      destruct (key_eqb k' (JStr u)) eqn:E2; try reflexivity; try exact IH.
    apply key_eqb_str_l in E2. subst k'. now apply key_eqb_str_r in E1.
Qed.

Ltac step_in H :=
  match type of H with
  | context [bind (lift ?r) _] =>
      destruct r eqn:?;
      [rewrite bind_raise in H; discriminate | rewrite bind_val in H]
  end.

Section Resolver.

Variable W : world.

Lemma add_user_other (d d' : dict) (user : json) (evs : list event) (u : string) :
  add_user W d user = (evs, inr d') ->
  py_getitem user "id" <> inr (JStr u) ->
  dict_find d' (JStr u) = dict_find d (JStr u).
Proof.
  unfold add_user. intros H Hid. repeat step_in H.
  rewrite bind_emit in H. inversion H; subst.
  match goal with
  | Hs : dict_setitem _ ?k _ = inr _ |- _ =>
      unfold dict_setitem in Hs; destruct (hashable k); [|discriminate];
      inversion Hs; subst
  end.
  apply dict_find_put_other. congruence.
Qed.

Lemma add_users_other (u : string) (users_json : list json) :
  Forall (fun user => py_getitem user "id" <> inr (JStr u)) users_json ->
  forall d d' evs,
    add_users W d users_json = (evs, inr d') ->
    dict_find d' (JStr u) = dict_find d (JStr u).
Proof.
  induction 1 as [|user users_json Hid _ IH]; intros d d' evs H; simpl in H.
  - inversion H. reflexivity.
  - apply bind_inr_inv in H as [evs1 [d1 [evs2 [H1 [H2 _]]]]].
    rewrite (IH _ _ _ H2). now apply (add_user_other d d1 user evs1).
Qed.

Lemma add_users_split (before after : list json) (user : json) :
  forall d d' evs,
    add_users W d (before ++ user :: after) = (evs, inr d') ->
    exists d1 d2 evs1 evs2,
      add_user W d1 user = (evs1, inr d2) /\ add_users W d2 after = (evs2, inr d').
Proof.
  induction before as [|b before IH]; intros d d' evs H; simpl in H.
  - apply bind_inr_inv in H as [evs1 [d2 [evs2 [H1 [H2 _]]]]].
    now exists d, d2, evs1, evs2.
  - apply bind_inr_inv in H as [evs1 [d1 [evs2 [_ [H2 _]]]]].
    now apply (IH d1 d' evs2).
Qed.

(** An entry with an empty [display_name] is stored under its
    [real_name]. *)
Lemma add_user_fallback (d : dict) (entry profile : list (string * json))
  (uid : string) (real_name : json) :
  assoc "id" entry = Some (JStr uid) ->
  assoc "profile" entry = Some (JObj profile) ->
  assoc "display_name" profile = Some (JStr "") ->
  assoc "real_name" profile = Some real_name ->
  add_user W d (JObj entry)
  = ([Print (PyStr.tab ++ "User ID: " ++ uid ++ " -> Display Name: " ++ fmt W real_name)],
     inr (dict_put d (JStr uid) real_name)).
Proof.
  intros Hid Hp Hd Hr. unfold add_user. cbn [py_getitem].
  rewrite Hp, bind_val. cbn [py_getitem]. rewrite Hd, bind_val.
  cbn [truthy negb String.eqb]. rewrite Hr, bind_val, Hid, bind_val.
  cbn [dict_setitem hashable]. rewrite bind_val, bind_emit. reflexivity.
Qed.

Lemma get_display_names_loaded (first : string) (others : list string)
  (file_path : string) (document : json) (entries : list json) (users : dict) :
  locate_table W "users.json" first = Some file_path ->
  json_load W file_path = inr document ->
  py_iter document = inr entries ->
  outcome (get_display_names W (first :: others)) = inr (Some users) ->
  exists evs, add_users W [] entries = (evs, inr users).
Proof.
  intros Hloc Hl Hi. unfold get_display_names.
  rewrite bind_emit. simpl first_path. rewrite bind_val, Hloc, Hl, bind_val, Hi, bind_val.
  destruct (add_users W [] entries) as [evs [e|d]]; simpl; [discriminate|].
  intros H. inversion H; subst. now exists evs.
Qed.

End Resolver.

(** C8. An identity entry with an empty [display_name] resolves to its
    [real_name]: the loop of [get_display_names] stores the [real_name]
    under the entry's id, the table returned maps the id to it when no later
    entry has the same id, and an inline [user_profile] with an empty
    [display_name] gives the [real_name] as author. *)
Theorem display_name_falls_back_to_real_name (W : world) (first : string)
  (others : list string) (file_path : string) (document : json)
  (before after : list json) (entry profile message_fields : list (string * json))
  (uid : string) (real_name : json) (users : dict) (table : option dict) :
  locate_table W "users.json" first = Some file_path ->
  json_load W file_path = inr document ->
  py_iter document = inr (before ++ JObj entry :: after)%list ->
  assoc "id" entry = Some (JStr uid) ->
  assoc "profile" entry = Some (JObj profile) ->
  assoc "display_name" profile = Some (JStr "") ->
  assoc "real_name" profile = Some real_name ->
  Forall (fun later => py_getitem later "id" <> inr (JStr uid)) after ->
  outcome (get_display_names W (first :: others)) = inr (Some users) ->
  assoc "user_profile" message_fields = Some (JObj profile) ->
  (forall d, add_user W d (JObj entry)
             = ([Print (PyStr.tab ++ "User ID: " ++ uid ++ " -> Display Name: "
                        ++ fmt W real_name)],
                inr (dict_put d (JStr uid) real_name)))
  /\ dict_find users (JStr uid) = Some real_name
  /\ author_name table (JObj message_fields) = inr real_name.
Proof.
  intros Hloc Hl Hi Hid Hp Hd Hr Hlater Hout Hm.
  assert (Hstep : forall d, add_user W d (JObj entry)
             = ([Print (PyStr.tab ++ "User ID: " ++ uid ++ " -> Display Name: "
                        ++ fmt W real_name)],
                inr (dict_put d (JStr uid) real_name)))
    by (intros d; now apply (add_user_fallback W d entry profile)).
  repeat split.
  - exact Hstep.
  - destruct (get_display_names_loaded W first others file_path document _ users
                Hloc Hl Hi Hout) as [evs Hall].
    apply add_users_split in Hall as [d1 [d2 [evs1 [evs2 [H1 H2]]]]].
    rewrite Hstep in H1. inversion H1; subst.
    rewrite (add_users_other W uid after Hlater _ _ _ H2).
    apply dict_find_put_same.
  - unfold author_name. simpl. rewrite Hm. simpl. rewrite Hd. simpl. now rewrite Hr.
Qed.

(** ** The statements at sample exports *)

(** C7 at a record without [text] followed by a valid one. *)
Lemma invalid_record_is_skipped_witness :
  for_each (import_message empty_world (Some sample_users) (Some sample_channels))
    [JObj [("ts", JStr "1"); ("user", JStr "U123")]; alice_message "next"]
  = (skip_warning
       :: trace (for_each (import_message empty_world (Some sample_users) (Some sample_channels))
                   [alice_message "next"]),
     outcome (for_each (import_message empty_world (Some sample_users) (Some sample_channels))
                [alice_message "next"])).
Proof.
  apply (invalid_record_is_skipped empty_world (Some sample_users) (Some sample_channels)
           [("ts", JStr "1"); ("user", JStr "U123")] [alice_message "next"]).
  right; left; reflexivity.
Defined.

(** C4 at a file whose second record has the unknown author [U999]. *)
Lemma author_lookup_error_aborts_file_witness :
  exists e,
    import_file (export_with_users [alice_message "first"; JObj orphan_fields; alice_message "never"])
      (Some sample_users) (Some sample_channels) day1
    = (Print ("[INFO] Parsing file: " ++ day1)
         :: flat_map (fun m => trace (import_message
                        (export_with_users [alice_message "first"; JObj orphan_fields;
                                            alice_message "never"])
                        (Some sample_users) (Some sample_channels) m))
              [alice_message "first"]
         ++ [PrintError "[ERROR] " e],
       inr tt).
Proof.
  destruct (author_lookup_error_aborts_file
              (export_with_users [alice_message "first"; JObj orphan_fields; alice_message "never"])
              (Some sample_users) (Some sample_channels) day1
              (JArr [alice_message "first"; JObj orphan_fields; alice_message "never"])
              [alice_message "first"] [alice_message "never"] orphan_fields "U999" [day2])
    as [e [_ [_ [Hfile _]]]].
  - reflexivity.
  - reflexivity.
  - constructor; [vm_compute; reflexivity | constructor].
  - discriminate.
  - discriminate.
  - reflexivity.
  - reflexivity.
  - intros d H. inversion H. reflexivity.
  - exists e. exact Hfile.
Defined.

(** C10 at a file whose second record has a descriptor without
    [url_private]. *)
Lemma missing_url_private_aborts_file_witness :
  import_message (export_with_users [alice_message "first"; JObj unlinked_fields])
    (Some sample_users) (Some sample_channels) (JObj unlinked_fields)
  = ([], inl TypeError).
Proof.
  destruct (missing_url_private_aborts_file
              (export_with_users [alice_message "first"; JObj unlinked_fields])
              sample_users sample_channels day1
              (JArr [alice_message "first"; JObj unlinked_fields])
              [alice_message "first"] [] unlinked_fields
              (JStr "1609459300") (JStr "Bob") "01/01/2021 at 00:00:00" "see file"
              [JObj [("url_private", JStr "https://files.example/a.txt");
                     ("name", JStr "a.txt"); ("mimetype", JStr "text/plain")];
               JObj [("name", JStr "b.txt"); ("mimetype", JStr "text/plain")]]
              [day2])
    as [urls [_ [_ [_ [Hm _]]]]].
  - reflexivity.
  - reflexivity.
  - constructor; [vm_compute; reflexivity | constructor].
  - reflexivity.
  - reflexivity.
  - reflexivity.
  - reflexivity.
  - reflexivity.
  - repeat constructor; eexists; reflexivity.
  - apply Exists_cons_tl, Exists_cons_hd. eexists; split; reflexivity.
  - exact Hm.
Defined.

(** C5 at a file whose records carry descending timestamps, in a directory
    listed in descending order. *)
Lemma sends_follow_input_order_witness :
  import_file
    (export_with_users [alice_message_at "1700000000" "later"; alice_message_at "1600000000" "earlier"])
    (Some sample_users) (Some sample_channels) day1
  = (Print ("[INFO] Parsing file: " ++ day1)
       :: flat_map (fun m => trace (import_message
                      (export_with_users [alice_message_at "1700000000" "later";
                                          alice_message_at "1600000000" "earlier"])
                      (Some sample_users) (Some sample_channels) m))
            [alice_message_at "1700000000" "later"; alice_message_at "1600000000" "earlier"],
     inr tt)
  /\ StronglySorted path_le
       (sorted (json_files_at
                  (export_with_users [alice_message_at "1700000000" "later";
                                      alice_message_at "1600000000" "earlier"])
                  "export/general")).
Proof.
  destruct (sends_follow_input_order
              (export_with_users [alice_message_at "1700000000" "later";
                                  alice_message_at "1600000000" "earlier"])
              (Some sample_users) (Some sample_channels) "export/general" day1
              (JArr [alice_message_at "1700000000" "later"; alice_message_at "1600000000" "earlier"])
              [alice_message_at "1700000000" "later"; alice_message_at "1600000000" "earlier"])
    as [Hfile [_ [_ [Hsorted _]]]].
  - reflexivity.
  - reflexivity.
  - repeat constructor.
  - discriminate.
  - split; [exact Hfile | exact Hsorted].
Defined.

(** C8 at the user table of the sample export, whose first entry has an
    empty [display_name] and the [real_name] [Bob]. *)
Lemma display_name_falls_back_to_real_name_witness :
  dict_find sample_users (JStr "U123") = Some (JStr "Bob")
  /\ author_name None (JObj [("ts", JStr "1"); ("text", JStr "hi");
                             ("user_profile", JObj bob_profile)])
     = inr (JStr "Bob").
Proof.
  destruct (display_name_falls_back_to_real_name (export_with_users []) day2 [day1]
              "export/users.json" (JArr [JObj bob_entry; carol_entry])
              [] [carol_entry] bob_entry bob_profile
              [("ts", JStr "1"); ("text", JStr "hi"); ("user_profile", JObj bob_profile)]
              "U123" (JStr "Bob") sample_users None)
    as [_ [Hfind Hauthor]].
  - reflexivity.
  - reflexivity.
  - reflexivity.
  - reflexivity.
  - reflexivity.
  - reflexivity.
  - reflexivity.
  - repeat constructor. discriminate.
  - reflexivity.
  - reflexivity.
  - split; [exact Hfind | exact Hauthor].
Defined.

(** * Further properties of the code *)

(** ** The text returned by [fill_references] *)

Lemma rstrip_app_char (ch : ascii) (s : string) :
  PyStr.rstrip ch (s ++ String ch EmptyString) = PyStr.rstrip ch s.
Proof.
  induction s as [|c s IH]; simpl.
  - now rewrite Ascii.eqb_refl.
  - now rewrite IH.
Qed.

Lemma lstrip_head (ch : ascii) (s : string) (c : ascii) (q : string) :
  PyStr.lstrip ch s = String c q -> c <> ch.
Proof.
  induction s as [|d s IH]; simpl; [discriminate|].
  destruct (Ascii.eqb d ch) eqn:E; [exact IH|].
  intros H. inversion H; subst. now apply Ascii.eqb_neq.
Qed.

Lemma lstrip_suffix (ch : ascii) (s : string) :
  exists p, s = p ++ PyStr.lstrip ch s.
Proof.
  induction s as [|d s [p IH]]; simpl.
  - now exists "".
  - destruct (Ascii.eqb d ch).
    + exists (String d p). simpl. now rewrite <- IH.
    + now exists "".
Qed.

Lemma rstrip_last (ch : ascii) (s : string) :
  forall q, PyStr.rstrip ch s <> q ++ String ch EmptyString.
Proof.
  induction s as [|c s IH]; intros q; simpl.
  - destruct q; discriminate.
  - destruct (PyStr.rstrip ch s) as [|d r] eqn:E.
    + destruct (Ascii.eqb c ch) eqn:Ec; [destruct q; discriminate|].
      destruct q as [|c' q]; simpl.
      * intros H. inversion H; subst. rewrite Ascii.eqb_refl in Ec. discriminate.
      * intros H. inversion H. destruct q; discriminate.
    + destruct q as [|c' q]; simpl; [discriminate|].
      intros H. inversion H. now apply (IH q).
Qed.

Lemma app_assoc_str (a b c : string) : (a ++ b) ++ c = a ++ b ++ c.
Proof. induction a as [|x a IH]; simpl; [reflexivity | now rewrite IH]. Qed.

Lemma strip_ends (ch : ascii) (s : string) :
  (forall q, PyStr.strip ch s <> String ch q)
  /\ (forall q, PyStr.strip ch s <> q ++ String ch EmptyString).
Proof.
  unfold PyStr.strip. split; intros q H.
  - now apply lstrip_head in H.
  - destruct (lstrip_suffix ch (PyStr.rstrip ch s)) as [p Hp].
    rewrite H, <- app_assoc_str in Hp. now apply rstrip_last in Hp.
Qed.

(** X1. Whatever the arguments, a text returned by [fill_references]
    neither starts nor ends with a newline. *)
Theorem fill_references_no_outer_newline (W : world) (message : json)
  (users channels : option dict) (files : list json) (final : string) :
  fill_references W message users channels files = inr final ->
  (forall q, final <> PyStr.nl ++ q) /\ (forall q, final <> q ++ PyStr.nl).
Proof.
  unfold fill_references. intros H.
  destruct (substitute W message users channels) as [e|message']; [discriminate|].
  destruct (join_files "" files) as [e|files_msg]; [discriminate|].
  cbn [ebind] in H. unfold truncate_and_append in H.
  destruct message'; try discriminate. inversion H; subst.
  apply strip_ends.
Qed.

Lemma fill_references_no_outer_newline_witness :
  (forall q, "a" ++ PyStr.nl ++ PyStr.nl ++ PyStr.nl ++ "u" <> PyStr.nl ++ q)
  /\ (forall q, "a" ++ PyStr.nl ++ PyStr.nl ++ PyStr.nl ++ "u" <> q ++ PyStr.nl).
Proof.
  apply (fill_references_no_outer_newline empty_world
           (JStr (PyStr.nl ++ "a" ++ PyStr.nl)) (Some []) (Some []) [JStr ("u" ++ PyStr.nl)]).
  reflexivity.
Defined.

Lemma take_all (n : nat) (s : string) : String.length s <= n -> PyStr.take n s = s.
Proof.
  revert s; induction n as [|n IH]; intros [|c s]; simpl; intros H;
    try reflexivity; try lia.
  rewrite IH by lia. reflexivity.
Qed.

(** X2. Without attachments the transformer returns the substituted text
    cut to its first 1940 characters and stripped of outer newlines, which
    has at most 1940 characters. *)
Theorem fill_references_without_files (W : world) (body : string) (users channels : dict) :
  exists substituted,
    substitute W (JStr body) (Some users) (Some channels) = inr (JStr substituted)
    /\ fill_references W (JStr body) (Some users) (Some channels) []
       = inr (PyStr.strip PyStr.LF (PyStr.take 1940 substituted))
    /\ String.length (PyStr.strip PyStr.LF (PyStr.take 1940 substituted)) <= 1940.
Proof.
  destruct (substitute_str W body users channels) as [s' Hs].
  exists s'. split; [exact Hs|]. split.
  - unfold fill_references. rewrite Hs. cbn [ebind join_files].
    unfold truncate_and_append, PyStr.join_nl, PyStr.strip, PyStr.nl.
    replace (String PyStr.LF "" ++ "") with (String PyStr.LF "") by reflexivity.
    rewrite rstrip_app_char. reflexivity.
  - pose proof (length_strip PyStr.LF (PyStr.take 1940 s')).
    pose proof (length_take 1940 s'). lia.
Qed.

(** X3. The reserve of 60 characters covers the header: when the
    attachment block has at most 1940 characters, the timestamp has the 22
    characters of [%m/%d/%Y at %H:%M:%S] and the author name at most 27,
    the message handed to [ctx.send] has at most 2000 characters. *)
Theorem composed_message_within_limit (W : world) (body : string) (users channels : dict)
  (files : list json) (block : string) (username : json) (timestamp : string) :
  join_files "" files = inr block ->
  String.length block <= 1940 ->
  String.length timestamp = 22 ->
  String.length (fmt W username) <= 27 ->
  exists text,
    fill_references W (JStr body) (Some users) (Some channels) files = inr text
    /\ String.length (compose W username timestamp text) <= 2000.
Proof.
  intros Hj Hb Ht Hu.
  unfold fill_references.
  destruct (substitute_str W body users channels) as [s' ->]; cbn [ebind].
  rewrite Hj; cbn [ebind].
  destruct (length_truncate_and_append s' block Hb) as [text [-> Hlen]].
  exists text. split; [reflexivity|].
  unfold compose. rewrite !length_app. simpl String.length. lia.
Qed.

Lemma composed_message_within_limit_witness :
  exists text,
    fill_references empty_world (JStr (repeat_char "x" 3000)) (Some sample_users)
      (Some sample_channels) [JStr "https://files.example/a.txt"] = inr text
    /\ String.length (compose empty_world (JStr "Alice") "01/01/2021 at 00:00:00" text) <= 2000.
Proof.
  apply (composed_message_within_limit empty_world (repeat_char "x" 3000) sample_users
           sample_channels [JStr "https://files.example/a.txt"]
           (PyStr.nl ++ "https://files.example/a.txt") (JStr "Alice") "01/01/2021 at 00:00:00").
  - reflexivity.
  - apply Nat.leb_le. vm_compute. reflexivity.
  - reflexivity.
  - apply Nat.leb_le. vm_compute. reflexivity.
Defined.

(** ** Attachment fetcher *)

(** X4. A descriptor with a string [mimetype] and a [url_private] never
    raises in [uploadd_file]: an image is passed over without any event;
    otherwise exactly one event follows, the placeholder for a status other
    than 200, the file for a completed download, or the printed line for
    any failure in between. *)
Theorem uploadd_file_never_raises (W : world) (fs : list (string * json))
  (mimetype : string) (url : json) :
  assoc "mimetype" fs = Some (JStr mimetype) ->
  assoc "url_private" fs = Some url ->
  exists evs,
    uploadd_file W (JObj fs) = (evs, inr tt)
    /\ ((PyStr.occurs "image" mimetype = true /\ evs = [])
        \/ (PyStr.occurs "image" mimetype = false
            /\ ((exists e, evs = [PrintSkip e url])
                \/ (exists status body,
                      http_get W url = inr (status, body) /\ status <> 200%Z
                      /\ evs = [ChannelSend "Could not download file..."])
                \/ (exists data name,
                      http_get W url = inr (200%Z, inr data)
                      /\ assoc "name" fs = Some name
                      /\ evs = [ChannelSendFile data name])))).
Proof.
  intros Hm Hu. unfold uploadd_file. cbn [py_getitem]. rewrite Hm, bind_val.
  cbn [py_contains]. rewrite bind_val.
  destruct (PyStr.occurs "image" mimetype) eqn:Eimg.
  - exists []. split; [reflexivity|]. now left.
  - rewrite Hu, !bind_val.
    destruct (http_get W url) as [e|[status body]] eqn:Eget.
    + rewrite bind_raise. cbn [try_catch emit]. eexists; split; [reflexivity|].
      right; split; [reflexivity|]. left. now exists e.
    + rewrite bind_val. cbn [fst snd].
      destruct (status =? 200)%Z eqn:Est; cbn [negb].
      * apply Z.eqb_eq in Est. subst status.
        destruct body as [e|data].
        -- rewrite bind_raise. cbn [try_catch emit]. eexists; split; [reflexivity|].
           right; split; [reflexivity|]. left. now exists e.
        -- rewrite bind_val.
           destruct (assoc "name" fs) as [name|] eqn:Ename.
           ++ rewrite bind_val. cbn [try_catch emit]. eexists; split; [reflexivity|].
              right; split; [reflexivity|]. right; right. now exists data, name.
           ++ rewrite bind_raise. cbn [try_catch emit]. eexists; split; [reflexivity|].
              right; split; [reflexivity|]. left. now exists KeyError.
      * apply Z.eqb_neq in Est. cbn [try_catch emit]. eexists; split; [reflexivity|].
        right; split; [reflexivity|]. right; left. now exists status, body.
Qed.

Lemma uploadd_file_never_raises_witness :
  exists evs,
    uploadd_file empty_world
      (JObj [("url_private", JStr "https://files.example/a.png");
             ("mimetype", JStr "image/png")]) = (evs, inr tt).
Proof.
  destruct (uploadd_file_never_raises empty_world
              [("url_private", JStr "https://files.example/a.png");
               ("mimetype", JStr "image/png")]
              "image/png" (JStr "https://files.example/a.png"))
    as [evs [H _]].
  - reflexivity.
  - reflexivity.
  - now exists evs.
Defined.

(** With a [url_private] at hand, every failure after the image test is
    caught by the [try]. *)
Lemma uploadd_file_returns (W : world) (fs : list (string * json))
  (mimetype : string) (url : json) :
  assoc "mimetype" fs = Some (JStr mimetype) ->
  assoc "url_private" fs = Some url ->
  outcome (uploadd_file W (JObj fs)) = inr tt.
Proof.
  intros Hm Hu. unfold uploadd_file. cbn [py_getitem]. rewrite Hm, bind_val.
  cbn [py_contains]. rewrite bind_val.
  destruct (PyStr.occurs "image" mimetype); [reflexivity|].
  rewrite Hu, !bind_val.
  destruct (http_get W url) as [e|[status [e|data]]]; [reflexivity| |];
    rewrite bind_val; cbn [fst snd];
    (destruct (negb (status =? 200)%Z); [reflexivity|]).
  - reflexivity.
  - rewrite bind_val. destruct (assoc "name" fs); reflexivity.
Qed.

(** X5. For a descriptor with a string [mimetype], [uploadd_file] raises
    exactly when the attachment is not an image and [url_private] is
    missing: the [except] clause formats the same missing key, so the
    [KeyError] leaves the function, and nothing has been emitted. *)
Theorem uploadd_file_raises_iff (W : world) (fs : list (string * json)) (mimetype : string) :
  assoc "mimetype" fs = Some (JStr mimetype) ->
  (PyStr.occurs "image" mimetype = false /\ assoc "url_private" fs = None
   -> uploadd_file W (JObj fs) = ([], inl KeyError))
  /\ (forall evs e, uploadd_file W (JObj fs) = (evs, inl e) ->
        PyStr.occurs "image" mimetype = false /\ assoc "url_private" fs = None).
Proof.
  intros Hm. split.
  - intros [Himg Hurl]. unfold uploadd_file. cbn [py_getitem]. rewrite Hm, bind_val.
    cbn [py_contains]. rewrite bind_val, Himg, Hurl. reflexivity.
  - intros evs e H.
    destruct (assoc "url_private" fs) as [url|] eqn:Eurl.
    + pose proof (uploadd_file_returns W fs mimetype url Hm Eurl) as H'.
      rewrite H in H'. discriminate.
    + split; [|reflexivity].
      destruct (PyStr.occurs "image" mimetype) eqn:Eimg; [|reflexivity].
      unfold uploadd_file in H. cbn [py_getitem] in H. rewrite Hm, bind_val in H.
      cbn [py_contains] in H. rewrite bind_val, Eimg in H. discriminate.
Qed.

Lemma uploadd_file_raises_iff_witness :
  uploadd_file empty_world (JObj [("name", JStr "b.txt"); ("mimetype", JStr "text/plain")])
  = ([], inl KeyError).
Proof.
  apply (uploadd_file_raises_iff empty_world
           [("name", JStr "b.txt"); ("mimetype", JStr "text/plain")] "text/plain").
  - reflexivity.
  - split; reflexivity.
Defined.

(** ** One message *)



(** X7. When the first attachment descriptor of a record has no
    [mimetype], the text of the message is sent and then [uploadd_file]
    raises [KeyError]: the record leaves exactly the send behind, without
    the line of the log and without the pause. *)
Theorem import_message_sent_then_raises (W : world) (users channels : option dict)
  (fields fs : list (string * json)) (ts text username : json) (timestamp body : string)
  (rest urls : list json) :
  assoc "ts" fields = Some ts ->
  strftime_ts W ts = inr timestamp ->
  assoc "text" fields = Some text ->
  author_name users (JObj fields) = inr username ->
  assoc "files" fields = Some (JArr (JObj fs :: rest)) ->
  assoc "mimetype" fs = None ->
  url_private_of (JObj fs :: rest) = inr urls ->
  fill_references W text users channels urls = inr body ->
  import_message W users channels (JObj fields)
  = ([CtxSend (compose W username timestamp body)], inl KeyError).
Proof.
  intros Hts Hfmt Htext Hauthor Hfiles Hmime Hurls Hfill.
  unfold import_message. rewrite has_required_fields_obj.
  rewrite (author_name_needs_author _ _ _ Hauthor).
  unfold has_field at 1 2. rewrite Hts, Htext. simpl andb.
  rewrite bind_val, Hauthor, bind_val.
  cbn [py_getitem]. rewrite Hts, bind_val, Hfmt, bind_val.
  unfold message_files. cbn [py_get]. rewrite Hfiles. cbn [ebind py_iter].
  rewrite bind_val, Hurls, bind_val, Htext, bind_val, Hfill, bind_val.
  rewrite bind_emit, bind_val. cbn [for_each].
  assert (Hup : uploadd_file W (JObj fs) = ([], inl KeyError))
    by (unfold uploadd_file; cbn [py_getitem]; now rewrite Hmime, bind_raise).
  rewrite Hup. reflexivity.
Qed.

Lemma import_message_sent_then_raises_witness :
  import_message empty_world (Some sample_users) (Some sample_channels)
    (JObj [("ts", JStr "1"); ("text", JStr "see file"); ("user", JStr "U123");
           ("files", JArr [JObj [("url_private", JStr "https://files.example/a.txt")]])])
  = ([CtxSend (compose empty_world (JStr "Bob") "01/01/2021 at 00:00:00"
                 ("see file" ++ PyStr.nl ++ PyStr.nl ++ "https://files.example/a.txt"))],
     inl KeyError).
Proof.
  apply (import_message_sent_then_raises empty_world (Some sample_users) (Some sample_channels)
           [("ts", JStr "1"); ("text", JStr "see file"); ("user", JStr "U123");
            ("files", JArr [JObj [("url_private", JStr "https://files.example/a.txt")]])]
           [("url_private", JStr "https://files.example/a.txt")]
           (JStr "1") (JStr "see file") (JStr "Bob") "01/01/2021 at 00:00:00"
           ("see file" ++ PyStr.nl ++ PyStr.nl ++ "https://files.example/a.txt")
           [] [JStr "https://files.example/a.txt"]);
    reflexivity.
Defined.

Lemma has_required_fields_error (message : json) (e : exn) :
  has_required_fields message = inl e -> e = TypeError.
Proof.
  unfold has_required_fields.
  destruct message; simpl; try (intros H; now inversion H);
    repeat match goal with
           | |- context [if ?b then _ else _] => destruct b; simpl
           end; discriminate.
Qed.

Lemma author_name_non_object (users : option dict) (message : json) :
  (forall fields, message <> JObj fields) ->
  author_name users message = inl TypeError.
Proof.
  intros Hno. unfold author_name.
  destruct message; simpl; try reflexivity.
  - destruct (PyStr.occurs "user_profile" s); reflexivity.
  - destruct (existsb (is_str "user_profile") items); reflexivity.
  - now contradiction (Hno fields).
Qed.

(** X8. Only JSON objects are ever sent: an element of the export file
    that is not an object is passed over with the warning or raises
    [TypeError] before [ctx.send], whatever it contains. *)
Theorem import_message_non_object (W : world) (users channels : option dict)
  (message : json) :
  (forall fields, message <> JObj fields) ->
  import_message W users channels message = ([skip_warning], inr tt)
  \/ import_message W users channels message = ([], inl TypeError).
Proof.
  intros Hno. unfold import_message.
  destruct (has_required_fields message) as [e|[|]] eqn:E.
  - right. now rewrite (has_required_fields_error message e E).
  - right. now rewrite bind_val, (author_name_non_object users message Hno).
  - left. reflexivity.
Qed.

Lemma import_message_non_object_witness :
  import_message empty_world (Some sample_users) (Some sample_channels)
    (JStr "ts text user") = ([skip_warning], inr tt)
  \/ import_message empty_world (Some sample_users) (Some sample_channels)
       (JStr "ts text user") = ([], inl TypeError).
Proof.
  apply (import_message_non_object empty_world (Some sample_users) (Some sample_channels)
           (JStr "ts text user")).
  intros fields H. discriminate H.
Defined.

(** ** Files and path arguments *)

(** X9. An export file that cannot be opened or parsed costs one printed
    error and nothing else; the loop over the files goes on with the next
    one. *)
Theorem import_file_unreadable (W : world) (users channels : option dict)
  (json_file : string) (e : exn) (rest : list string) :
  json_load W json_file = inl e ->
  import_file W users channels json_file
  = ([Print ("[INFO] Parsing file: " ++ json_file); PrintError "[ERROR] " e], inr tt)
  /\ for_each (import_file W users channels) (json_file :: rest)
     = (Print ("[INFO] Parsing file: " ++ json_file)
          :: PrintError "[ERROR] " e
          :: trace (for_each (import_file W users channels) rest),
        outcome (for_each (import_file W users channels) rest)).
Proof.
  intros Hl.
  assert (Hf : import_file W users channels json_file
               = ([Print ("[INFO] Parsing file: " ++ json_file); PrintError "[ERROR] " e],
                  inr tt))
    by (unfold import_file; now rewrite Hl, bind_raise).
  split; [exact Hf|].
  rewrite import_files_cons, Hf. reflexivity.
Qed.

Lemma import_file_unreadable_witness :
  import_file empty_world None None "gone.json"
  = ([Print ("[INFO] Parsing file: " ++ "gone.json");
      PrintError "[ERROR] " (External "FileNotFoundError")], inr tt)
  /\ for_each (import_file empty_world None None) ["gone.json"]
     = (Print ("[INFO] Parsing file: " ++ "gone.json")
          :: PrintError "[ERROR] " (External "FileNotFoundError")
          :: trace (for_each (import_file empty_world None None) []),
        outcome (for_each (import_file empty_world None None) [])).
Proof.
  apply (import_file_unreadable empty_world None None "gone.json"
           (External "FileNotFoundError") []).
  reflexivity.
Defined.

Lemma filter_none {A : Type} (f : A -> bool) (l : list A) :
  Forall (fun a => f a = false) l -> filter f l = [].
Proof.
  induction 1 as [|a l Ha _ IH]; simpl; [reflexivity|]. now rewrite Ha.
Qed.

(** X10. A path argument that is a directory without entries ending in
    [.json], or that is no directory and does not end in [.json], is
    reported twice and skipped: no table is looked for, no file is opened
    and nothing is sent. *)
Theorem import_path_without_files (W : world) (path : string) :
  (if isdir W path
   then Forall (fun name => PyStr.endswith ".json" name = false) (listdir W path)
   else PyStr.endswith ".json" path = false) ->
  import_path W path
  = ([Print ("[INFO] Attempting to import '" ++ path ++ "' to channel '#"
             ++ channel_name W ++ "'");
      Print ("[ERROR] No .json files found at " ++ path);
      Print ("[ERROR] No .json files found at " ++ path)],
     inr tt).
Proof.
  intros H.
  assert (Hnone : json_files_at W path = []).
  { unfold json_files_at. destruct (isdir W path).
    - now rewrite (filter_none _ _ H).
    - now rewrite H. }
  unfold import_path, get_file_paths. rewrite Hnone. reflexivity.
Qed.

Lemma import_path_without_files_witness :
  import_path export_without_users "export"
  = ([Print "[INFO] Attempting to import 'export' to channel '#general'";
      Print "[ERROR] No .json files found at export";
      Print "[ERROR] No .json files found at export"],
     inr tt).
Proof.
  apply (import_path_without_files export_without_users "export").
  reflexivity.
Defined.



Lemma sorted_unique (l1 : list string) :
  forall l2, StronglySorted path_le l1 -> StronglySorted path_le l2 ->
             Permutation l1 l2 -> l1 = l2.
Proof.
  induction l1 as [|x l1 IH]; intros l2 H1 H2 Hp.
  - now apply Permutation_nil in Hp.
  - destruct l2 as [|y l2]; [apply Permutation_sym, Permutation_nil in Hp; discriminate|].
    inversion H1 as [|? ? Hs1 Hx]; inversion H2 as [|? ? Hs2 Hy]; subst.
    assert (Hxy : x = y).
    { assert (Hin1 : In x (y :: l2)) by (apply (Permutation_in _ Hp); now left).
      assert (Hin2 : In y (x :: l1))
        by (apply (Permutation_in _ (Permutation_sym Hp)); now left).
      destruct Hin1 as [->|Hin1]; [reflexivity|].
      destruct Hin2 as [->|Hin2]; [reflexivity|].
      apply String.leb_antisym.
      - exact (proj1 (Forall_forall _ _) Hx y Hin2).
      - exact (proj1 (Forall_forall _ _) Hy x Hin1). }
    subst y. f_equal. apply IH; try assumption.
    now apply Permutation_cons_inv in Hp.
Qed.

(** X12. The order of import does not depend on the order in which the
    directory is listed: two listings of the same paths are sorted into the
    same list. *)
Theorem sorted_independent_of_listing (l1 l2 : list string) :
  Permutation l1 l2 -> sorted l1 = sorted l2.
Proof.
  intros Hp. apply sorted_unique; try apply sorted_ordered.
  eapply perm_trans; [apply Permutation_sym, sorted_perm|].
  eapply perm_trans; [exact Hp | apply sorted_perm].
Qed.

Lemma sorted_independent_of_listing_witness :
  sorted [day2; day1] = sorted [day1; day2].
Proof.
  apply (sorted_independent_of_listing [day2; day1] [day1; day2]).
  apply perm_swap.
Defined.

(** ** Lookup tables *)

Section Tables.

Variable W : world.

Lemma add_user_malformed (d : dict) (user : json) :
  (exists e, py_getitem user "id" = inl e) \/ (exists e, py_getitem user "profile" = inl e) ->
  exists evs e, add_user W d user = (evs, inl e).
Proof.
  intros Hbad. unfold add_user.
  step; [eexists; eexists; reflexivity|].
  step; [eexists; eexists; reflexivity|].
  step; [eexists; eexists; reflexivity|].
  step; [eexists; eexists; reflexivity|].
  destruct Hbad as [[e He]|[e He]]; congruence.
Qed.

Lemma add_users_malformed (users_json : list json) :
  Exists (fun user => (exists e, py_getitem user "id" = inl e)
                      \/ (exists e, py_getitem user "profile" = inl e)) users_json ->
  forall d, exists evs e, add_users W d users_json = (evs, inl e).
Proof.
  induction 1 as [user rest Hbad | user rest _ IH]; intros d; simpl.
  - destruct (add_user_malformed d user Hbad) as [evs [e ->]].
    exists evs, e. reflexivity.
  - destruct (add_user W d user) as [evs [e|d']].
    + exists evs, e. reflexivity.
    + destruct (IH d') as [evs' [e H]]. rewrite bind_pair, H.
      eexists; eexists; reflexivity.
Qed.

(** X13. One entry of [users.json] without [id] or without [profile]
    costs the whole table: [get_display_names] returns [None], not the
    entries read before it. *)
Theorem get_display_names_malformed (first : string) (others : list string)
  (file_path : string) (document : json) (entries : list json) :
  locate_table W "users.json" first = Some file_path ->
  json_load W file_path = inr document ->
  py_iter document = inr entries ->
  Exists (fun user => (exists e, py_getitem user "id" = inl e)
                      \/ (exists e, py_getitem user "profile" = inl e)) entries ->
  outcome (get_display_names W (first :: others)) = inr None.
Proof.
  intros Hloc Hl Hi Hbad. unfold get_display_names.
  rewrite bind_emit. simpl first_path. rewrite bind_val, Hloc, Hl, bind_val, Hi, bind_val.
  destruct (add_users_malformed entries Hbad []) as [evs [e ->]].
  reflexivity.
Qed.

Lemma add_user_named (d : dict) (entry profile : list (string * json))
  (uid : string) (display_name : json) :
  assoc "id" entry = Some (JStr uid) ->
  assoc "profile" entry = Some (JObj profile) ->
  assoc "display_name" profile = Some display_name ->
  truthy display_name = true ->
  add_user W d (JObj entry)
  = ([Print (PyStr.tab ++ "User ID: " ++ uid ++ " -> Display Name: " ++ fmt W display_name)],
     inr (dict_put d (JStr uid) display_name)).
Proof.
  intros Hid Hp Hd Ht. unfold add_user. cbn [py_getitem].
  rewrite Hp, bind_val. cbn [py_getitem]. rewrite Hd, bind_val.
  rewrite Ht, bind_val, Hid, bind_val.
  cbn [dict_setitem hashable]. rewrite bind_val, bind_emit. reflexivity.
Qed.

(** X14. In the table [get_display_names] returns, an id stands for the
    [display_name] of the last entry with that id, when that
    [display_name] is not empty: earlier entries with the same id are
    overwritten and [real_name] is not looked at. *)
Theorem get_display_names_last_entry_wins (first : string) (others : list string)
  (file_path : string) (document : json) (before after : list json)
  (entry profile : list (string * json)) (uid : string) (display_name : json)
  (users : dict) :
  locate_table W "users.json" first = Some file_path ->
  json_load W file_path = inr document ->
  py_iter document = inr (before ++ JObj entry :: after)%list ->
  assoc "id" entry = Some (JStr uid) ->
  assoc "profile" entry = Some (JObj profile) ->
  assoc "display_name" profile = Some display_name ->
  truthy display_name = true ->
  Forall (fun later => py_getitem later "id" <> inr (JStr uid)) after ->
  outcome (get_display_names W (first :: others)) = inr (Some users) ->
  dict_find users (JStr uid) = Some display_name.
Proof.
  intros Hloc Hl Hi Hid Hp Hd Ht Hlater Hout.
  destruct (get_display_names_loaded W first others file_path document _ users
              Hloc Hl Hi Hout) as [evs Hall].
  apply add_users_split in Hall as [d1 [d2 [evs1 [evs2 [H1 H2]]]]].
  rewrite (add_user_named d1 entry profile uid display_name Hid Hp Hd Ht) in H1.
  inversion H1; subst.
  rewrite (add_users_other W uid after Hlater _ _ _ H2).
  apply dict_find_put_same.
Qed.

Lemma add_channel_named (d : dict) (channel : json) (cid : string) (name : json) :
  py_getitem channel "id" = inr (JStr cid) ->
  py_getitem channel "name" = inr name ->
  add_channel W d channel
  = ([Print (PyStr.tab ++ "Channel ID: " ++ cid ++ " -> Channel Name: " ++ fmt W name)],
     inr (dict_put d (JStr cid) name)).
Proof.
  intros Hid Hn. unfold add_channel.
  rewrite Hn, bind_val, Hid, bind_val.
  cbn [dict_setitem hashable]. rewrite bind_val, bind_emit. reflexivity.
Qed.

Lemma add_channel_other (d d' : dict) (channel : json) (evs : list event) (c : string) :
  add_channel W d channel = (evs, inr d') ->
  py_getitem channel "id" <> inr (JStr c) ->
  dict_find d' (JStr c) = dict_find d (JStr c).
Proof.
  unfold add_channel. intros H Hid. repeat step_in H.
  rewrite bind_emit in H. inversion H; subst.
  match goal with
  | Hs : dict_setitem _ ?k _ = inr _ |- _ =>
      unfold dict_setitem in Hs; destruct (hashable k); [|discriminate];
      inversion Hs; subst
  end.
  apply dict_find_put_other. congruence.
Qed.

Lemma add_channels_other (c : string) (channels_json : list json) :
  Forall (fun channel => py_getitem channel "id" <> inr (JStr c)) channels_json ->
  forall d d' evs,
    add_channels W d channels_json = (evs, inr d') ->
    dict_find d' (JStr c) = dict_find d (JStr c).
Proof.
  induction 1 as [|channel channels_json Hid _ IH]; intros d d' evs H; simpl in H.
  - inversion H. reflexivity.
  - apply bind_inr_inv in H as [evs1 [d1 [evs2 [H1 [H2 _]]]]].
    rewrite (IH _ _ _ H2). now apply (add_channel_other d d1 channel evs1).
Qed.

Lemma add_channels_split (before after : list json) (channel : json) :
  forall d d' evs,
    add_channels W d (before ++ channel :: after) = (evs, inr d') ->
    exists d1 d2 evs1 evs2,
      add_channel W d1 channel = (evs1, inr d2)
      /\ add_channels W d2 after = (evs2, inr d').
Proof.
  induction before as [|b before IH]; intros d d' evs H; simpl in H.
  - apply bind_inr_inv in H as [evs1 [d2 [evs2 [H1 [H2 _]]]]].
    now exists d, d2, evs1, evs2.
  - apply bind_inr_inv in H as [evs1 [d1 [evs2 [_ [H2 _]]]]].
    now apply (IH d1 d' evs2).
Qed.

Lemma add_channels_returns (channels_json : list json) :
  Forall (fun channel => exists cid name,
            py_getitem channel "id" = inr (JStr cid)
            /\ py_getitem channel "name" = inr name) channels_json ->
  forall d, exists evs d', add_channels W d channels_json = (evs, inr d').
Proof.
  induction 1 as [|channel rest [cid [name [Hid Hn]]] _ IH]; intros d; simpl.
  - eexists; eexists; reflexivity.
  - rewrite (add_channel_named d channel cid name Hid Hn).
    destruct (IH (dict_put d (JStr cid) name)) as [evs [d' H]].
    rewrite bind_pair, H. eexists; eexists; reflexivity.
Qed.

(** X15. A [channels.json] whose entries all have a string [id] and a
    [name] is loaded whole: [get_channel_names] returns a table in which
    an id stands for the [name] of the last entry with that id, and an id
    that no entry has is absent. *)
Theorem get_channel_names_loads (first : string) (others : list string)
  (file_path : string) (document : json) (entries : list json) :
  locate_table W "channels.json" first = Some file_path ->
  json_load W file_path = inr document ->
  py_iter document = inr entries ->
  Forall (fun channel => exists cid name,
            py_getitem channel "id" = inr (JStr cid)
            /\ py_getitem channel "name" = inr name) entries ->
  exists channels,
    outcome (get_channel_names W (first :: others)) = inr (Some channels)
    /\ (forall before channel after cid name,
          entries = (before ++ channel :: after)%list ->
          py_getitem channel "id" = inr (JStr cid) ->
          py_getitem channel "name" = inr name ->
          Forall (fun later => py_getitem later "id" <> inr (JStr cid)) after ->
          dict_find channels (JStr cid) = Some name)
    /\ (forall cid,
          Forall (fun channel => py_getitem channel "id" <> inr (JStr cid)) entries ->
          dict_find channels (JStr cid) = None).
Proof.
  intros Hloc Hl Hi Hwf.
  destruct (add_channels_returns entries Hwf []) as [evs [channels Hall]].
  exists channels. split; [|split].
  - unfold get_channel_names.
    rewrite bind_emit. simpl first_path.
    rewrite bind_val, Hloc, Hl, bind_val, Hi, bind_val, Hall. reflexivity.
  - intros before channel after cid name -> Hid Hn Hlater.
    apply add_channels_split in Hall as [d1 [d2 [evs1 [evs2 [H1 H2]]]]].
    rewrite (add_channel_named d1 channel cid name Hid Hn) in H1.
    inversion H1; subst.
    rewrite (add_channels_other cid after Hlater _ _ _ H2).
    apply dict_find_put_same.
  - intros cid Hnone.
    now rewrite (add_channels_other cid entries Hnone _ _ _ Hall).
Qed.

End Tables.

Lemma get_display_names_malformed_witness :
  outcome (get_display_names export_with_broken_users [day1]) = inr None.
Proof.
  apply (get_display_names_malformed export_with_broken_users day1 [] "export/users.json"
           (JArr [JObj bob_entry; JObj [("profile", JObj bob_profile)]])
           [JObj bob_entry; JObj [("profile", JObj bob_profile)]]).
  - reflexivity.
  - reflexivity.
  - reflexivity.
  - apply Exists_cons_tl, Exists_cons_hd. left. exists KeyError. reflexivity.
Defined.

Lemma get_display_names_last_entry_wins_witness :
  dict_find sample_users (JStr "U456") = Some (JStr "carol").
Proof.
  apply (get_display_names_last_entry_wins (export_with_users []) day2 [day1]
           "export/users.json" (JArr [JObj bob_entry; carol_entry])
           [JObj bob_entry] []
           [("id", JStr "U456");
            ("profile", JObj [("display_name", JStr "carol"); ("real_name", JStr "Carol")])]
           [("display_name", JStr "carol"); ("real_name", JStr "Carol")]
           "U456" (JStr "carol") sample_users).
  - reflexivity.
  - reflexivity.
  - reflexivity.
  - reflexivity.
  - reflexivity.
  - reflexivity.
  - reflexivity.
  - constructor.
  - reflexivity.
Defined.

Lemma get_channel_names_loads_witness :
  exists channels,
    outcome (get_channel_names (export_with_users []) [day2; day1]) = inr (Some channels).
Proof.
  destruct (get_channel_names_loads (export_with_users []) day2 [day1]
              "export/channels.json"
              (JArr [JObj [("id", JStr "C1"); ("name", JStr "general")]])
              [JObj [("id", JStr "C1"); ("name", JStr "general")]])
    as [channels [H _]].
  - reflexivity.
  - reflexivity.
  - reflexivity.
  - repeat constructor. exists "C1", (JStr "general"). split; reflexivity.
  - now exists channels.
Defined.

(** ** Where the tables are looked for *)

Lemma upto_last_sep_none (s : string) :
  PosixPath.has_sep s = false -> PosixPath.upto_last_sep s = "".
Proof. destruct s as [|c s]; [reflexivity|]. intros H. cbn [PosixPath.upto_last_sep]. now rewrite H. Qed.

Lemma has_sep_app_sep (a b : string) : PosixPath.has_sep (a ++ PosixPath.sep ++ b) = true.
Proof.
  induction a as [|c a IH]; [reflexivity|].
  change (String c a ++ PosixPath.sep ++ b) with (String c (a ++ PosixPath.sep ++ b)).
  cbn [PosixPath.has_sep]. rewrite IH. apply orb_true_r.
Qed.

Lemma upto_last_sep_app (d name : string) :
  PosixPath.has_sep name = false ->
  PosixPath.upto_last_sep (d ++ PosixPath.sep ++ name) = d ++ PosixPath.sep.
Proof.
  intros Hn. induction d as [|c d IH].
  - simpl. now rewrite (upto_last_sep_none name Hn).
  - change (String c d ++ PosixPath.sep ++ name)
      with (String c (d ++ PosixPath.sep ++ name)).
    cbn [PosixPath.upto_last_sep PosixPath.has_sep].
    rewrite has_sep_app_sep, orb_true_r, IH. reflexivity.
Qed.

Lemma rstrip_fixed (ch : ascii) (s : string) :
  (forall q, s <> q ++ String ch EmptyString) -> PyStr.rstrip ch s = s.
Proof.
  induction s as [|c s IH]; intros H; [reflexivity|]. simpl.
  rewrite IH.
  - destruct s as [|d s]; [|reflexivity].
    destruct (Ascii.eqb c ch) eqn:E; [|reflexivity].
    apply Ascii.eqb_eq in E. subst c. now contradiction (H "").
  - intros q Hq. apply (H (String c q)). simpl. now rewrite Hq.
Qed.

Lemma all_sep_ends (s : string) :
  PosixPath.all_sep s = true -> s = "" \/ exists q, s = q ++ PosixPath.sep.
Proof.
  induction s as [|c s IH]; [now left|]. simpl. intros H.
  apply andb_true_iff in H as [Hc Hs]. apply Ascii.eqb_eq in Hc. subst c.
  right. destruct (IH Hs) as [-> | [q ->]].
  - now exists "".
  - now exists (String PosixPath.SEP q).
Qed.

Lemma all_sep_app (a b : string) :
  PosixPath.all_sep (a ++ b) = true -> PosixPath.all_sep a = true.
Proof.
  induction a as [|c a IH]; [reflexivity|]. simpl. intros H.
  apply andb_true_iff in H as [Hc Hs]. now rewrite Hc, IH.
Qed.

Lemma join_plain (d name : string) :
  d <> "" -> (forall q, d <> q ++ PosixPath.sep) -> PosixPath.has_sep name = false ->
  PosixPath.join d name = d ++ PosixPath.sep ++ name.
Proof.
  intros Hd Hend Hn. unfold PosixPath.join.
  assert (Hs : PyStr.startswith PosixPath.sep name = false).
  { destruct name as [|c name]; [reflexivity|].
    cbn [PosixPath.has_sep] in Hn. apply orb_false_iff in Hn as [Hc _].
    unfold PosixPath.sep. cbn [PyStr.startswith].
    now rewrite Ascii.eqb_sym, Hc. }
  rewrite Hs.
  assert (He : String.eqb d "" = false) by now apply String.eqb_neq.
  assert (Hw : PyStr.endswith PosixPath.sep d = false).
  { destruct (PyStr.endswith PosixPath.sep d) eqn:E; [|reflexivity].
    apply endswith_spec in E as [q Hq]. now contradiction (Hend q). }
  now rewrite He, Hw.
Qed.

Lemma dirname_join (d name : string) :
  d <> "" -> (forall q, d <> q ++ PosixPath.sep) -> PosixPath.has_sep name = false ->
  PosixPath.dirname (PosixPath.join d name) = d.
Proof.
  intros Hd Hend Hn. rewrite (join_plain d name Hd Hend Hn).
  unfold PosixPath.dirname. rewrite (upto_last_sep_app d name Hn).
  assert (He : String.eqb (d ++ PosixPath.sep) "" = false).
  { apply String.eqb_neq. destruct d; discriminate. }
  assert (Ha : PosixPath.all_sep (d ++ PosixPath.sep) = false).
  { destruct (PosixPath.all_sep (d ++ PosixPath.sep)) eqn:E; [|reflexivity].
    apply all_sep_app, all_sep_ends in E as [-> | [q Hq]];
      [now contradiction Hd | now contradiction (Hend q)]. }
  rewrite He, Ha. cbn [negb andb].
  unfold PosixPath.sep. rewrite rstrip_app_char. now apply rstrip_fixed.
Qed.

(** X16. For an export file [name] taken from the listing of a directory
    [d] given without a trailing slash, each table is looked for as
    [d/table] first and next to [d] second, and nowhere else; the first of
    the two that is a file is the one loaded. *)
Theorem tables_looked_for_beside_exports (W : world) (table d name : string) :
  d <> "" -> (forall q, d <> q ++ PosixPath.sep) -> PosixPath.has_sep name = false ->
  locate_table W table (PosixPath.join d name)
  = if isfile W (PosixPath.join d table) then Some (PosixPath.join d table)
    else if isfile W (PosixPath.join (PosixPath.dirname d) table)
         then Some (PosixPath.join (PosixPath.dirname d) table)
         else None.
Proof.
  intros Hd Hend Hn. unfold locate_table.
  now rewrite (dirname_join d name Hd Hend Hn).
Qed.

Lemma tables_looked_for_beside_exports_witness :
  locate_table (export_with_users []) "users.json" day1 = Some "export/users.json".
Proof.
  apply (tables_looked_for_beside_exports (export_with_users []) "users.json"
           "export/general" "2021-01-01.json").
  - discriminate.
  - intros q H. apply (f_equal (PyStr.endswith PosixPath.sep)) in H.
    rewrite (proj2 (endswith_spec PosixPath.sep (q ++ PosixPath.sep))) in H
      by now exists q.
    discriminate H.
  - reflexivity.
Defined.



(** ** Texts without tokens, and the attachment block *)

Lemma occurs_first_char (c : ascii) (p s : string) :
  PyStr.occurs (String c p) s = true -> PyStr.occurs (String c EmptyString) s = true.
Proof.
  induction s as [|d s IH]; [discriminate|].
  cbn [PyStr.occurs]. intros H. apply orb_true_iff in H as [H|H].
  - cbn [PyStr.startswith] in *. apply andb_true_iff in H as [Hc _].
    now rewrite Hc.
  - rewrite (IH H). apply orb_true_r.
Qed.

(** X18. A text without the character [<] is left as it is by the two
    substitution loops, whatever the tables hold. *)
Theorem substitute_plain_text (W : world) (text : string) (users channels : dict) :
  PyStr.occurs "<" text = false ->
  substitute W (JStr text) (Some users) (Some channels) = inr (JStr text).
Proof.
  intros Hplain.
  assert (Habsent : forall p, PyStr.occurs (String "<" p) text = false).
  { intros p. destruct (PyStr.occurs (String "<" p) text) eqn:E; [|reflexivity].
    apply occurs_first_char in E. congruence. }
  unfold substitute; simpl.
  rewrite (replace_refs_absent W "<@" "@" text users) by (intros; apply Habsent).
  simpl. apply replace_refs_absent. intros; apply Habsent.
Qed.

Lemma substitute_plain_text_witness :
  substitute empty_world (JStr "see you @ 5 > 4") (Some sample_users) (Some sample_channels)
  = inr (JStr "see you @ 5 > 4").
Proof.
  apply (substitute_plain_text empty_world "see you @ 5 > 4" sample_users sample_channels).
  reflexivity.
Defined.

Lemma concat_empty_cons (x : string) (xs : list string) :
  String.concat "" (x :: xs) = x ++ String.concat "" xs.
Proof.
  destruct xs as [|y xs]; simpl.
  - induction x as [|c x IH]; simpl; [reflexivity | now rewrite <- IH].
  - reflexivity.
Qed.

Lemma join_files_strings (urls : list string) :
  forall files_msg,
    join_files files_msg (map JStr urls)
    = inr (files_msg ++ String.concat "" (map (fun url => PyStr.nl ++ url) urls)).
Proof.
  induction urls as [|url urls IH]; intros files_msg.
  - simpl. f_equal. induction files_msg as [|c m IHm]; simpl; [reflexivity | now rewrite <- IHm].
  - cbn [map join_files]. rewrite IH, concat_empty_cons.
    unfold PyStr.join_nl. now rewrite !app_assoc_str.
Qed.

Lemma join_files_returns (files : list json) :
  forall files_msg block, join_files files_msg files = inr block ->
                          exists urls, files = map JStr urls.
Proof.
  induction files as [|v files IH]; intros files_msg block H.
  - now exists [].
  - destruct v; try discriminate. simpl in H.
    destruct (IH _ _ H) as [urls ->]. now exists (s :: urls).
Qed.

(** X19. The loop over the attachment URLs returns exactly when every
    entry is a string, and the block it builds is the URLs in their order,
    each after a newline. *)
Theorem join_files_block (files : list json) (block : string) :
  join_files "" files = inr block <->
  exists urls, files = map JStr urls
               /\ block = String.concat "" (map (fun url => PyStr.nl ++ url) urls).
Proof.
  split.
  - intros H. destruct (join_files_returns files "" block H) as [urls ->].
    exists urls. split; [reflexivity|].
    rewrite join_files_strings in H. now inversion H.
  - intros [urls [-> ->]]. now rewrite join_files_strings.
Qed.
